(** * Empathetic code reviewer: a shallow embedding of [code_reviewer.py]

    The development follows the Python module top to bottom: the
    text primitives the reviewer relies on ([str.lower], [in],
    [str.strip]), the dynamically typed values that a decoded JSON
    document holds, exceptions, the chat-completion client with its
    request log, and then one definition per method of
    [EmpathticCodeReviewer].

    A Python [str] is represented by the bytes of its UTF-8 encoding
    (a [string], whose characters are 8-bit).  Every keyword the
    reviewer searches for is plain ASCII, so searching the bytes finds
    exactly what searching the code points finds. *)

From Stdlib Require Import ZArith Ascii String DecimalString.
From stdpp Require Import base option list gmap strings.

Local Open Scope Z_scope.

(** ** Text primitives *)

Module Str.

(** [str.lower] restricted to the letters A-Z.  Python lowers other
    letters too, but their lowercase forms stay outside ASCII, apart
    from U+212A (giving k) and U+0130 (giving i followed by U+0307);
    no keyword of the reviewer contains a k or ends in an i, so
    the containment tests below cannot tell the difference. *)
Definition lower_char (c : ascii) : ascii :=
  let n := N_of_ascii c in
  if ((65 <=? n) && (n <=? 90))%N then ascii_of_N (n + 32) else c.

Fixpoint lower (s : string) : string :=
  match s with
  | EmptyString => EmptyString
  | String c s' => String (lower_char c) (lower s')
  end.

(** [hay.startswith(needle)] *)
Fixpoint startswith (needle hay : string) : bool :=
  match needle, hay with
  | EmptyString, _ => true
  | String _ _, EmptyString => false
  | String a needle', String b hay' =>
      if Ascii.eqb a b then startswith needle' hay' else false
  end.

(** [needle in hay] on two strings: [needle] occurs somewhere in [hay]
    as a contiguous run. *)
Fixpoint contains (needle hay : string) : bool :=
  startswith needle hay
  || match hay with
     | EmptyString => false
     | String _ hay' => contains needle hay'
     end.

(** The code points of a UTF-8 string: a byte of the form 10xxxxxx
    continues the character that the byte before it started. *)
Definition is_continuation (c : ascii) : bool :=
  let n := N_of_ascii c in ((128 <=? n) && (n <=? 191))%N.

Definition starts_with_continuation (s : string) : bool :=
  match s with
  | EmptyString => false
  | String c _ => is_continuation c
  end.

Fixpoint chars (s : string) : list string :=
  match s with
  | EmptyString => []
  | String c s' =>
      match chars s' with
      | h :: t =>
          if starts_with_continuation h then String c h :: t
          else String c EmptyString :: h :: t
      | [] => [String c EmptyString]
      end
  end.

Definition of_bytes (l : list N) : string :=
  foldr (fun n s => String (ascii_of_N n) s) EmptyString l.

(** The characters for which [str.isspace] holds, and which
    [str.strip] therefore removes: the ASCII ones, then U+0085,
    U+00A0, U+1680, U+2000 to U+200A, U+2028, U+2029, U+202F, U+205F
    and U+3000 in their UTF-8 encoding. *)
Definition whitespace : list string :=
  map of_bytes
    ([[9]; [10]; [11]; [12]; [13]; [28]; [29]; [30]; [31]; [32];
      [194; 133]; [194; 160]; [225; 154; 128]]
     ++ map (fun n => [226; 128; n])
          [128; 129; 130; 131; 132; 133; 134; 135; 136; 137; 138;
           168; 169; 175]
     ++ [[226; 129; 159]; [227; 128; 128]])%N.

Definition isspace (c : string) : bool :=
  existsb (String.eqb c) whitespace.

Fixpoint lstrip_chars (l : list string) : list string :=
  match l with
  | c :: l' => if isspace c then lstrip_chars l' else l
  | [] => []
  end.

Definition join (l : list string) : string :=
  foldr String.append EmptyString l.

(** [s.strip()] *)
Definition strip (s : string) : string :=
  join (reverse (lstrip_chars (reverse (lstrip_chars (chars s))))).

End Str.

Example lower_mixed : Str.lower "Boolean '== True'" = "boolean '== true'".
Proof. reflexivity. Qed.

Example contains_inner : Str.contains "loop" "don't loop twice" = true.
Proof. reflexivity. Qed.

Example contains_absent : Str.contains "loop" "lo op" = false.
Proof. reflexivity. Qed.

Example strip_both_ends :
  Str.strip (Str.of_bytes [32; 10; 194; 160; 104; 105; 32; 33; 9; 226; 128; 168]%N)
  = "hi !".
Proof. reflexivity. Qed.

(** ** Python values and exceptions *)

(** What [json.loads] can produce.  A float is kept as the bit pattern
    of its binary64 representation; the reviewer never inspects it. *)
#[warnings="-register-all"]
Inductive value : Type :=
| VNone
| VBool (b : bool)
| VInt (n : Z)
| VFloat (bits : Z)
| VStr (s : string)
| VList (l : list value)
| VDict (d : gmap string value).

(** [type(v).__name__] *)
Definition type_name (v : value) : string :=
  match v with
  | VNone => "NoneType"
  | VBool _ => "bool"
  | VInt _ => "int"
  | VFloat _ => "float"
  | VStr _ => "str"
  | VList _ => "list"
  | VDict _ => "dict"
  end.

Inductive exn_class : Type :=
| Exception_        (* the base class, raised by the reviewer itself *)
| ValueError
| KeyError
| AttributeError
| RecursionError.

Record exn : Type := mk_exn { exn_type : exn_class; exn_str : string }.

(** The result of evaluating an expression that may raise. *)
Inductive outcome (A : Type) : Type :=
| Return (a : A)
| Raise (e : exn).
Arguments Return {A} a.
Arguments Raise {A} e.

Definition outcome_bind {A B} (m : outcome A) (k : A -> outcome B) : outcome B :=
  match m with
  | Return a => k a
  | Raise e => Raise e
  end.

#[global] Instance outcome_ret : MRet outcome := @Return.
#[global] Instance outcome_mbind : MBind outcome :=
  fun A B k m => outcome_bind m k.

(** A list comprehension or [for] loop whose body may raise stops at
    the first element that does. *)
Fixpoint outcome_map {A B} (f : A -> outcome B) (l : list A) : outcome (list B) :=
  match l with
  | [] => Return []
  | x :: l' =>
      y ← f x; ys ← outcome_map f l'; mret (y :: ys)
  end.

(** [v.lower()]: only [str] has the method. *)
Definition py_lower (v : value) : outcome string :=
  match v with
  | VStr s => Return (Str.lower s)
  | _ => Raise (mk_exn AttributeError
                  ("'" +:+ type_name v +:+ "' object has no attribute 'lower'"))
  end.

(** [sum(1 for x in xs if x in text)] *)
Definition count_in (xs : list string) (text : string) : Z :=
  foldr Z.add 0 (map (fun _ => 1) (filter (fun x => Str.contains x text = true) xs)).

(** [l.count(x)] *)
Definition py_count (l : list string) (x : string) : Z :=
  Z.of_nat (length (filter (fun y => y = x) l)).

(** [max(l, key=key)]: the first element whose key no later element
    exceeds; an empty [l] raises. *)
Fixpoint max_from {A} (key : A -> Z) (best : A) (l : list A) : A :=
  match l with
  | [] => best
  | x :: l' => max_from key (if key best <? key x then x else best) l'
  end.

Definition py_max {A} (key : A -> Z) (l : list A) : outcome A :=
  match l with
  | [] => Raise (mk_exn ValueError "max() arg is an empty sequence")
  | x :: l' => Return (max_from key x l')
  end.

(** [list(dict.fromkeys(l))]: the keys of a dict keep the order in
    which they were first inserted. *)
Fixpoint fromkeys_acc (seen : list string) (l : list string) : list string :=
  match l with
  | [] => reverse seen
  | x :: l' =>
      if decide (x ∈ seen) then fromkeys_acc seen l'
      else fromkeys_acc (x :: seen) l'
  end.

Definition fromkeys (l : list string) : list string := fromkeys_acc [] l.

(** [d[k]] *)
Definition getitem (d : gmap string value) (k : string) : outcome value :=
  match d !! k with
  | Some v => Return v
  | None => Raise (mk_exn KeyError ("'" +:+ k +:+ "'"))
  end.

(** [k in d] *)
Definition has_key (k : string) (d : gmap string value) : bool :=
  bool_decide (is_Some (d !! k)).

(** ** The chat-completion client *)

(** The keyword arguments of [chat.completions.create]. *)
Record request : Type := mk_request {
  model : string;
  system_content : string;
  user_content : string;
  temperature : string;      (* the literal of the source *)
  max_tokens : Z
}.

(** The hosted model is outside the program.  A client answers a
    request, given the requests made before it, either with the content
    of the first choice of the response or by raising. *)
Record OpenAI : Type := mk_client {
  chat_completions_create : list request -> request -> outcome string
}.

(** Computations that talk to the model thread the log of requests
    made so far. *)
Definition M (A : Type) : Type := list request -> outcome A * list request.

#[global] Instance M_ret : MRet M := fun A a log => (Return a, log).
#[global] Instance M_bind : MBind M := fun A B k m log =>
  match m log with
  | (Return a, log') => k a log'
  | (Raise e, log') => (Raise e, log')
  end.

Definition lift {A} (o : outcome A) : M A := fun log => (o, log).

Definition raise {A} (c : exn_class) (msg : string) : M A :=
  lift (Raise (mk_exn c msg)).

(** [try: body except Exception as e: handler(e)] *)
Definition try_except {A} (body : M A) (handler : exn -> M A) : M A :=
  fun log =>
    match body log with
    | (Return a, log') => (Return a, log')
    | (Raise e, log') => handler e log'
    end.

Definition create (c : OpenAI) (r : request) : M string :=
  fun log => (chat_completions_create c log r, log ++ [r]).

(** ** Text constants *)

Definition nl : string := String (ascii_of_N 10) EmptyString.
Definition dq : string := String (ascii_of_N 34) EmptyString.

(** The lines of a triple-quoted literal, joined by newlines. *)
Fixpoint unlines (l : list string) : string :=
  match l with
  | [] => EmptyString
  | [x] => x
  | x :: l' => x +:+ nl +:+ unlines l'
  end.

(** ** The reviewer *)

Record EmpathticCodeReviewer : Type := mk_reviewer { client : OpenAI }.

(** A test double for the hosted model: it answers every request with
    the same content. *)
Definition canned_client (content : string) : OpenAI :=
  mk_client (fun _ _ => Return content).

(** A test double whose every request fails with the given error text. *)
Definition failing_client (text : string) : OpenAI :=
  mk_client (fun _ _ => Raise (mk_exn Exception_ text)).

Definition canned_reviewer (content : string) : EmpathticCodeReviewer :=
  mk_reviewer (canned_client content).

Definition failing_reviewer (text : string) : EmpathticCodeReviewer :=
  mk_reviewer (failing_client text).

Definition harsh_indicators : list string :=
  ["bad"; "terrible"; "awful"; "stupid"; "dumb"; "wrong"; "never";
   "always"; "completely"; "totally"; "absolutely"; "obviously"].

Definition neutral_indicators : list string :=
  ["could"; "might"; "consider"; "suggest"; "perhaps"; "maybe";
   "improvement"; "better"; "optimize"].

Definition _assess_comment_severity
    (self : EmpathticCodeReviewer) (comment : value) : outcome string :=
  comment_lower ← py_lower comment;
  let harsh_count := count_in harsh_indicators comment_lower in
  let neutral_count := count_in neutral_indicators comment_lower in
  if harsh_count >? neutral_count then mret "harsh"
  else if neutral_count >? harsh_count then mret "neutral"
  else mret "moderate".

Definition naming_link : string :=
  "[PEP 8 - Naming Conventions](https://peps.python.org/pep-0008/#naming-conventions)".
Definition performance_link : string :=
  "[Python Performance Tips](https://wiki.python.org/moin/PythonSpeed/PerformanceTips)".
Definition comprehension_link : string :=
  "[List Comprehensions - Python Documentation](https://docs.python.org/3/tutorial/datastructures.html#list-comprehensions)".
Definition recommendations_link : string :=
  "[PEP 8 - Programming Recommendations](https://peps.python.org/pep-0008/#programming-recommendations)".
Definition docstring_link : string :=
  "[PEP 257 - Docstring Conventions](https://peps.python.org/pep-0257/)".

(** [resources.append(link)] under an [if]. *)
Definition append_if (cond : bool) (link : string) (resources : list string) : list string :=
  if cond then resources ++ [link] else resources.

Definition _get_relevant_resources
    (self : EmpathticCodeReviewer) (comment code_snippet : value) : outcome (list string) :=
  let resources := [] in
  comment_lower ← py_lower comment;
  code_lower ← py_lower code_snippet;
  let resources :=
    append_if (Str.contains "variable" comment_lower
               || Str.contains "naming" comment_lower)
      naming_link resources in
  let resources :=
    append_if (Str.contains "efficient" comment_lower
               || Str.contains "performance" comment_lower
               || Str.contains "loop" comment_lower)
      performance_link resources in
  let resources :=
    append_if (Str.contains "comprehension" comment_lower
               || Str.contains "list comprehension" comment_lower)
      comprehension_link resources in
  let resources :=
    append_if (Str.contains "== true" code_lower
               || Str.contains "== false" code_lower)
      recommendations_link resources in
  let resources :=
    append_if (Str.contains "function" comment_lower)
      docstring_link resources in
  mret resources.

Definition base_prompt : string :=
  unlines
    ["You are a senior software engineer and mentor known for your empathetic and educational approach to code reviews. Your goal is to transform critical feedback into constructive, encouraging guidance that helps developers learn and grow.";
     "";
     "Key principles:";
     "1. Always start with something positive or encouraging";
     "2. Explain the 'why' behind suggestions with clear technical reasoning";
     "3. Provide concrete, improved code examples";
     "4. Use inclusive language that builds confidence";
     "5. Focus on learning opportunities rather than mistakes"].

Definition severity_adjustments : list (string * string) :=
  [("harsh", " Pay special attention to softening harsh language and being extra encouraging. The original feedback may have been blunt or discouraging, so focus on building the developer's confidence while still conveying the technical improvement needed.");
   ("moderate", " Maintain a balanced, professional tone while being supportive and educational.");
   ("neutral", " The original feedback was already fairly neutral, so focus on making it more educational and adding the 'why' behind suggestions.")].

(** [d.get(k, default)] on a dict literal. *)
Fixpoint dict_get (d : list (string * string)) (k default : string) : string :=
  match d with
  | [] => default
  | (k', v) :: d' => if String.eqb k k' then v else dict_get d' k default
  end.

Definition _create_system_prompt (self : EmpathticCodeReviewer) (severity : string) : string :=
  base_prompt +:+ dict_get severity_adjustments severity "".

(** The result of [json.loads]: the decoded document, the text of the
    [JSONDecodeError] it raises, or another exception that it raises
    (the [RecursionError] of a document nested too deep, the plain
    [ValueError] of an integer literal with too many digits). *)
Inductive decoded : Type :=
| Document (v : value)
| DecodeError (text : string)
| DecoderRaised (e : exn).

(** Library functions the module calls and that are taken as given:
    the formatting of a value inside an f-string, and the [json]
    encoder and decoder. *)
Class PyLib : Type := mk_pylib {
  format_value : value -> string;
  format_str : forall s, format_value (VStr s) = s;
  json_dumps_indent2 : list value -> string;
  json_loads : string -> decoded
}.

Section Reviewer.

Context `{lib : PyLib}.

Definition user_prompt (code_snippet : value) (comments : list value) : string :=
  unlines
    ["Please transform the following code review comments into empathetic, educational feedback. For each comment, provide:";
     "";
     "1. **Positive Rephrasing**: A gentle, encouraging version that maintains the technical point";
     "2. **The 'Why'**: Clear explanation of the underlying software principle (performance, readability, maintainability, etc.)";
     "3. **Suggested Improvement**: Concrete code example demonstrating the fix";
     "";
     "Code Snippet:";
     "```python";
     format_value code_snippet;
     "```";
     "";
     "Original Comments:";
     json_dumps_indent2 comments;
     "";
     "Format your response as markdown with a section for each comment using this structure:";
     "";
     "---";
     "### Analysis of Comment: " +:+ dq +:+ "[original comment]" +:+ dq;
     "";
     "**Positive Rephrasing:** [encouraging version]";
     "";
     "**The 'Why':** [technical explanation]";
     "";
     "**Suggested Improvement:**";
     "```python";
     "[improved code]";
     "```";
     "";
     "[If applicable, add relevant resources or additional context]";
     "";
     "---";
     "";
     "After addressing all comments, add a " +:+ dq +:+ "Summary" +:+ dq
       +:+ " section with an encouraging overall assessment of the code and the developer's progress."].

Definition _generate_empathetic_review
    (self : EmpathticCodeReviewer) (code_snippet : value) (comments : list value)
    : M string :=
  severities ← lift (outcome_map (_assess_comment_severity self) comments);
  overall_severity ← lift (py_max (py_count severities) severities);
  let system_prompt := _create_system_prompt self overall_severity in
  let user_prompt := user_prompt code_snippet comments in
  try_except
    (content ← create (client self)
                 {| model := "gpt-4";
                    system_content := system_prompt;
                    user_content := user_prompt;
                    temperature := "0.7";
                    max_tokens := 2500 |};
     mret (Str.strip content))
    (fun e => raise Exception_ ("Error generating review: " +:+ exn_str e)).

Definition resource_section_head : string :=
  nl +:+ nl +:+ "## Additional Resources" +:+ nl +:+ nl
  +:+ "For further learning, consider reviewing these resources:" +:+ nl +:+ nl.

(** [for resource in unique_resources: resource_section += ...] *)
Definition add_bullets (resource_section : string) (unique_resources : list string) : string :=
  foldl (fun acc resource => acc +:+ "- " +:+ resource +:+ nl)
        resource_section unique_resources.

Definition _enhance_with_resources
    (self : EmpathticCodeReviewer) (review_content : string)
    (code_snippet : value) (comments : list value) : outcome string :=
  per_comment ←
    outcome_map (fun comment => _get_relevant_resources self comment code_snippet)
                comments;
  let all_resources := concat per_comment in
  let unique_resources := fromkeys all_resources in
  match unique_resources with
  | _ :: _ =>
      let resource_section := add_bullets resource_section_head unique_resources in
      mret (review_content +:+ resource_section)
  | [] => mret review_content
  end.

(** The bytes that stand between [# ] and the title in the source
    of [generate_review_report]: the UTF-8 encoding of U+00F0, U+0178
    and U+201C. *)
Definition report_mark : string :=
  Str.of_bytes [195; 176; 197; 184; 226; 128; 156]%N.

Definition report_header : string :=
  "# " +:+ report_mark +:+ " Empathetic Code Review Report" +:+ nl +:+ nl.

Definition generate_review_report
    (self : EmpathticCodeReviewer) (input_data : gmap string value) : M string :=
  try_except
    (if negb (has_key "code_snippet" input_data)
        || negb (has_key "review_comments" input_data)
     then raise ValueError "Input must contain 'code_snippet' and 'review_comments' keys"
     else
       code_snippet ← lift (getitem input_data "code_snippet");
       comments ← lift (getitem input_data "review_comments");
       match comments with
       | VList (c :: cs) =>
           let comments := c :: cs in
           review_content ← _generate_empathetic_review self code_snippet comments;
           enhanced_review ←
             lift (_enhance_with_resources self review_content code_snippet comments);
           let final_report := report_header +:+ enhanced_review in
           mret final_report
       | _ => raise ValueError "'review_comments' must be a non-empty list"
       end)
    (fun e => raise Exception_ ("Failed to generate review report: " +:+ exn_str e)).

Definition parse_json_input (json_string : string) : outcome value :=
  match json_loads json_string with
  | Document data => Return data
  | DecodeError text => Raise (mk_exn ValueError ("Invalid JSON format: " +:+ text))
  | DecoderRaised e => Raise e
  end.

End Reviewer.

(** ** A stand-in for the library

    For running the reviewer on examples: an instance of [PyLib] that
    formats and encodes strings without escaping them and that decodes
    one document, the input of [sample_text]. *)

Definition sample_text : string :=
  "{" +:+ dq +:+ "code_snippet" +:+ dq +:+ ": " +:+ dq +:+ "if flag == True: pass" +:+ dq
  +:+ ", " +:+ dq +:+ "review_comments" +:+ dq +:+ ": ["
  +:+ dq +:+ "Variable 'u' is a bad name." +:+ dq +:+ ", "
  +:+ dq +:+ "This function is inefficient." +:+ dq +:+ "]}".

Definition sample_input : gmap string value :=
  {[ "code_snippet" := VStr "if flag == True: pass";
     "review_comments" := VList [VStr "Variable 'u' is a bad name.";
                                 VStr "This function is inefficient."] ]}.

Definition plain_format (v : value) : string :=
  match v with
  | VStr s => s
  | _ => "<" +:+ type_name v +:+ ">"
  end.

Fixpoint plain_items (l : list value) : string :=
  match l with
  | [] => EmptyString
  | [v] => "  " +:+ dq +:+ plain_format v +:+ dq +:+ nl
  | v :: l' => "  " +:+ dq +:+ plain_format v +:+ dq +:+ "," +:+ nl +:+ plain_items l'
  end.

Definition sample_lib : PyLib := {|
  format_value := plain_format;
  format_str := fun s => eq_refl;
  json_dumps_indent2 := fun l =>
    match l with
    | [] => "[]"
    | _ :: _ => "[" +:+ nl +:+ plain_items l +:+ "]"
    end;
  json_loads := fun s =>
    if String.eqb s sample_text then Document (VDict sample_input)
    else DecodeError "Expecting value: line 1 column 1 (char 0)"
|}.

(** * Properties *)

(** ** Containment *)

(** [needle] occurs in [hay]: some text, then [needle], then some text. *)
Definition occurs (needle hay : string) : Prop :=
  exists pre post, hay = pre +:+ needle +:+ post.

Lemma startswith_spec needle hay :
  Str.startswith needle hay = true <-> exists post, hay = needle +:+ post.
Proof.
  revert hay. induction needle as [|a needle IH]; intros hay; simpl.
  - split; [intros _; by exists hay | done].
  - destruct hay as [|b hay].
    + split; [done | intros [post H]; discriminate H].
    + destruct (Ascii.eqb_spec a b) as [->|Hne].
      * rewrite IH. split; intros [post H]; exists post.
        -- by rewrite H.
        -- by injection H.
      * split; [done | intros [post H]; injection H; congruence].
Qed.

Lemma contains_spec needle hay :
  Str.contains needle hay = true <-> occurs needle hay.
Proof.
  unfold occurs. induction hay as [|b hay IH].
  - cbn [Str.contains]. rewrite orb_false_r, startswith_spec. split.
    + intros [post H]. by exists EmptyString, post.
    + intros [[|c pre] [post H]]; [by exists post | discriminate H].
  - cbn [Str.contains]. rewrite orb_true_iff, startswith_spec, IH. split.
    + intros [[post H] | (pre & post & H)].
      * by exists EmptyString, post.
      * exists (String b pre), post. by rewrite H.
    + intros [[|c pre] [post H]].
      * left. by exists post.
      * right. exists pre, post. by injection H.
Qed.

#[global] Instance occurs_dec : RelDecision occurs.
Proof.
  intros needle hay.
  destruct (Str.contains needle hay) eqn:E.
  - left. by apply contains_spec.
  - right. intros H. apply contains_spec in H. congruence.
Defined.

Lemma contains_decide needle hay :
  Str.contains needle hay = bool_decide (occurs needle hay).
Proof.
  destruct (Str.contains needle hay) eqn:E; symmetry.
  - by apply bool_decide_eq_true, contains_spec.
  - apply bool_decide_eq_false. intros H. apply contains_spec in H. congruence.
Qed.

(** ** Severity *)

(** The indicators of a list that occur in the lowercased comment, as a
    set: an indicator is in it or not, however often it occurs. *)
Definition indicator_hits (indicators : list string) (comment : string) : gset string :=
  filter (fun i => occurs i (Str.lower comment)) (list_to_set indicators).

Lemma sum_of_ones {A} (l : list A) :
  foldr Z.add 0 (map (fun _ => 1) l) = Z.of_nat (length l).
Proof. induction l as [|x l IH]; simpl length; [done | cbn; lia]. Qed.

Lemma count_in_hits (indicators : list string) (comment : string) :
  NoDup indicators ->
  count_in indicators (Str.lower comment)
  = Z.of_nat (size (indicator_hits indicators comment)).
Proof.
  intros Hnd. unfold count_in, indicator_hits. rewrite sum_of_ones. f_equal.
  rewrite <- (size_list_to_set (C := gset string)) by by apply NoDup_filter.
  f_equal. apply set_eq. intros x.
  rewrite elem_of_list_to_set, list_elem_of_filter, elem_of_filter, elem_of_list_to_set.
  by rewrite contains_spec.
Qed.

Lemma harsh_indicators_NoDup : NoDup harsh_indicators.
Proof. apply (bool_decide_unpack _). by vm_compute. Qed.

Lemma neutral_indicators_NoDup : NoDup neutral_indicators.
Proof. apply (bool_decide_unpack _). by vm_compute. Qed.

Lemma indicator_hits_bound (indicators : list string) (comment : string) :
  NoDup indicators ->
  (size (indicator_hits indicators comment) <= length indicators)%nat.
Proof.
  intros Hnd. rewrite <- (size_list_to_set (C := gset string) indicators Hnd).
  apply subseteq_size. intros x. unfold indicator_hits.
  rewrite elem_of_filter. tauto.
Qed.

(** The label that the counts of occurring indicators call for. *)
Definition label_by_counts (comment : string) : string :=
  let harsh := size (indicator_hits harsh_indicators comment) in
  let neutral := size (indicator_hits neutral_indicators comment) in
  if decide (neutral < harsh)%nat then "harsh"
  else if decide (harsh < neutral)%nat then "neutral"
  else "moderate".

Lemma assess_comment_severity_label (self : EmpathticCodeReviewer) (comment : string) :
  _assess_comment_severity self (VStr comment) = Return (label_by_counts comment).
Proof.
  unfold _assess_comment_severity, label_by_counts.
  cbn [py_lower mbind outcome_mbind outcome_bind].
  rewrite (count_in_hits _ _ harsh_indicators_NoDup),
          (count_in_hits _ _ neutral_indicators_NoDup).
  set (harsh := size (indicator_hits harsh_indicators comment)).
  set (neutral := size (indicator_hits neutral_indicators comment)).
  rewrite !Z.gtb_ltb.
  destruct (decide (neutral < harsh)%nat) as [H|H].
  - by rewrite (proj2 (Z.ltb_lt _ _)) by lia.
  - rewrite (proj2 (Z.ltb_ge _ _)) by lia.
    destruct (decide (harsh < neutral)%nat) as [H'|H'].
    + by rewrite (proj2 (Z.ltb_lt _ _)) by lia.
    + by rewrite (proj2 (Z.ltb_ge _ _)) by lia.
Qed.

Lemma label_by_counts_cases (comment : string) :
  label_by_counts comment = "harsh"
  \/ label_by_counts comment = "neutral"
  \/ label_by_counts comment = "moderate".
Proof. unfold label_by_counts. repeat case_decide; auto. Qed.

Example harsh_comment :
  _assess_comment_severity (canned_reviewer "")
    (VStr "This code is terrible and completely wrong!") = Return "harsh".
Proof. reflexivity. Qed.

Example neutral_comment :
  _assess_comment_severity (canned_reviewer "")
    (VStr "Consider using list comprehension for better readability.")
  = Return "neutral".
Proof. reflexivity. Qed.

(** An indicator that occurs three times still counts once. *)
Example repeated_indicator_counts_once :
  _assess_comment_severity (canned_reviewer "")
    (VStr "Bad, bad, BAD. You could do it.") = Return "moderate".
Proof. reflexivity. Qed.

(** C2: for every comment string, the severity is "harsh" when strictly more
    harsh indicators than neutral indicators occur in the lowercased
    comment, "neutral" when strictly more neutral ones occur, and
    "moderate" when the counts are equal; the counts are the sizes of
    the sets of occurring indicators, so an indicator counts once
    however often it occurs, and the result is one of the three labels. *)
Theorem assess_comment_severity_by_counts
    (self : EmpathticCodeReviewer) (comment : string) :
  let harsh := size (indicator_hits harsh_indicators comment) in
  let neutral := size (indicator_hits neutral_indicators comment) in
  let result := _assess_comment_severity self (VStr comment) in
  result = Return (if decide (neutral < harsh)%nat then "harsh"
                   else if decide (harsh < neutral)%nat then "neutral"
                   else "moderate")
  /\ (harsh <= length harsh_indicators)%nat
  /\ (neutral <= length neutral_indicators)%nat
  /\ (result = Return "harsh" \/ result = Return "neutral"
      \/ result = Return "moderate").
Proof.
  intros harsh neutral result. subst result.
  rewrite assess_comment_severity_label.
  split; [done|]. split; [|split].
  - apply indicator_hits_bound, harsh_indicators_NoDup.
  - apply indicator_hits_bound, neutral_indicators_NoDup.
  - destruct (label_by_counts_cases comment) as [-> | [-> | ->]]; auto.
Qed.

(** ** Resource links *)

(** The keyword rules as a table: where a rule looks, the keywords that
    trigger it, and the link it contributes. *)
Inductive subject : Type := InComment | InSnippet.

Record rule : Type := mk_rule {
  looks_in : subject;
  keywords : list string;
  link : string
}.

Definition naming_rule := mk_rule InComment ["variable"; "naming"] naming_link.
Definition performance_rule :=
  mk_rule InComment ["efficient"; "performance"; "loop"] performance_link.
Definition comprehension_rule := mk_rule InComment ["comprehension"] comprehension_link.
Definition recommendations_rule :=
  mk_rule InSnippet ["== true"; "== false"] recommendations_link.
Definition docstring_rule := mk_rule InComment ["function"] docstring_link.

(** The rules in the order in which [_get_relevant_resources] checks them. *)
Definition resource_rules : list rule :=
  [naming_rule; performance_rule; comprehension_rule; recommendations_rule;
   docstring_rule].

(** The rules in the order in which the specification lists them: the
    four comment rules, then the snippet rule. *)
Definition listed_rules : list rule :=
  [naming_rule; performance_rule; comprehension_rule; docstring_rule;
   recommendations_rule].

Definition subject_text (comment snippet : string) (r : rule) : string :=
  Str.lower (match looks_in r with InComment => comment | InSnippet => snippet end).

(** A rule fires when one of its keywords occurs in the lowercased text
    it looks in. *)
Definition fires (comment snippet : string) (r : rule) : Prop :=
  Exists (fun k => occurs k (subject_text comment snippet r)) (keywords r).

#[global] Instance fires_dec comment snippet r : Decision (fires comment snippet r).
Proof. unfold fires. apply _. Defined.

(** The links of the rules of a table that fire, in table order. *)
Definition links_of (table : list rule) (comment snippet : string) : list string :=
  link <$> filter (fires comment snippet) table.

Lemma append_assoc (x y z : string) : (x +:+ y) +:+ z = x +:+ (y +:+ z).
Proof.
  induction x as [|ch x IH]; [done|].
  change (String ch ((x +:+ y) +:+ z) = String ch (x +:+ (y +:+ z))).
  by rewrite IH.
Qed.

Lemma append_empty_r (x : string) : x +:+ EmptyString = x.
Proof.
  induction x as [|ch x IH]; [done|].
  change (String ch (x +:+ EmptyString) = String ch x). by rewrite IH.
Qed.

Lemma occurs_trans a b c : occurs a b -> occurs b c -> occurs a c.
Proof.
  intros (p1 & q1 & ->) (p2 & q2 & ->).
  exists (p2 +:+ p1), (q1 +:+ q2).
  by rewrite !append_assoc.
Qed.

Lemma Exists_occurs_existsb (text : string) (ks : list string) :
  bool_decide (Exists (fun k => occurs k text) ks)
  = existsb (fun k => Str.contains k text) ks.
Proof.
  induction ks as [|k ks IH].
  - apply bool_decide_eq_false_2. intros H. inversion H.
  - cbn [existsb]. rewrite <- IH, contains_decide, <- bool_decide_or.
    apply bool_decide_ext. by rewrite Exists_cons.
Qed.

Lemma fires_existsb comment snippet r :
  bool_decide (fires comment snippet r)
  = existsb (fun k => Str.contains k (subject_text comment snippet r)) (keywords r).
Proof. apply Exists_occurs_existsb. Qed.

Lemma filter_fires_cons comment snippet r table :
  filter (fires comment snippet) (r :: table)
  = if existsb (fun k => Str.contains k (subject_text comment snippet r)) (keywords r)
    then r :: filter (fires comment snippet) table
    else filter (fires comment snippet) table.
Proof.
  rewrite <- fires_existsb, filter_cons.
  destruct (decide (fires comment snippet r)) as [H|H].
  - by rewrite bool_decide_eq_true_2.
  - by rewrite bool_decide_eq_false_2.
Qed.

Lemma list_comprehension_redundant text :
  Str.contains "comprehension" text || Str.contains "list comprehension" text
  = Str.contains "comprehension" text.
Proof.
  assert (H : Str.contains "list comprehension" text = true ->
              Str.contains "comprehension" text = true).
  { intros H%contains_spec. apply contains_spec.
    apply occurs_trans with "list comprehension"; [|done].
    by apply contains_spec. }
  destruct (Str.contains "comprehension" text); [done|].
  destruct (Str.contains "list comprehension" text); [|done].
  by specialize (H eq_refl).
Qed.

Example resources_for_loop_comment :
  _get_relevant_resources (canned_reviewer "")
    (VStr "This is inefficient. Don't loop twice conceptually.")
    (VStr "if u.is_active == True and u.profile_complete == True:")
  = Return [performance_link; recommendations_link].
Proof. reflexivity. Qed.

(** C4, as stated, fails: with the comment "function" and the snippet
    "x == true" the code returns the programming-recommendations link
    before the PEP 257 link, while the order in which the claim lists
    the rules puts the PEP 257 link first. *)
Lemma resources_not_in_listed_order :
  _get_relevant_resources (canned_reviewer "") (VStr "function") (VStr "x == true")
  = Return [recommendations_link; docstring_link]
  /\ links_of listed_rules "function" "x == true"
     = [docstring_link; recommendations_link]
  /\ _get_relevant_resources (canned_reviewer "") (VStr "function") (VStr "x == true")
     <> Return (links_of listed_rules "function" "x == true").
Proof. split; [|split]; [by vm_compute..|]. vm_compute. discriminate. Qed.

Lemma get_relevant_resources_links
    (self : EmpathticCodeReviewer) (comment snippet : string) :
  _get_relevant_resources self (VStr comment) (VStr snippet)
  = Return (links_of resource_rules comment snippet).
Proof.
  unfold _get_relevant_resources, links_of, resource_rules.
  cbn [py_lower mbind outcome_mbind outcome_bind mret outcome_ret].
  rewrite !filter_fires_cons, filter_nil.
  cbn [keywords looks_in subject_text existsb
       naming_rule performance_rule comprehension_rule recommendations_rule
       docstring_rule].
  rewrite list_comprehension_redundant, !orb_false_r.
  destruct (Str.contains "variable" _), (Str.contains "naming" _),
    (Str.contains "efficient" _), (Str.contains "performance" _),
    (Str.contains "loop" _), (Str.contains "comprehension" _),
    (Str.contains "== true" _), (Str.contains "== false" _),
    (Str.contains "function" _); reflexivity.
Qed.

(** C4, amended: for every comment string and code snippet the links
    returned are exactly those of the rules that fire, a comment rule on
    a keyword occurring in the lowercased comment and the snippet rule
    on "== true" or "== false" occurring in the lowercased snippet, in
    the order in which the code checks them: naming, performance, list
    comprehensions, programming recommendations, PEP 257. *)
Theorem get_relevant_resources_in_check_order
    (self : EmpathticCodeReviewer) (comment snippet : string) :
  _get_relevant_resources self (VStr comment) (VStr snippet)
  = Return (link <$> filter (fires comment snippet)
                       [naming_rule; performance_rule; comprehension_rule;
                        recommendations_rule; docstring_rule]).
Proof. apply get_relevant_resources_links. Qed.

(** ** The most frequent label *)

Lemma max_from_ge {A} (key : A -> Z) (best : A) (l : list A) :
  key best <= key (max_from key best l).
Proof.
  revert best. induction l as [|x l IH]; intros best; cbn [max_from]; [lia|].
  destruct (Z.ltb_spec (key best) (key x)) as [Hlt|Hge].
  - specialize (IH x). lia.
  - apply IH.
Qed.

(** [max_from] returns the earliest element whose key is largest: every
    element before it has a strictly smaller key, and no element after
    it has a larger one. *)
Lemma max_from_first_maximal {A} (key : A -> Z) (best : A) (l : list A) :
  exists pre post,
    best :: l = pre ++ max_from key best l :: post
    /\ (forall x, x ∈ pre -> key x < key (max_from key best l))
    /\ (forall x, x ∈ post -> key x <= key (max_from key best l)).
Proof.
  revert best. induction l as [|x l IH]; intros best.
  - exists [], []. cbn. repeat split; intros y Hy; by apply elem_of_nil in Hy.
  - cbn [max_from]. destruct (Z.ltb_spec (key best) (key x)) as [Hlt|Hge].
    + destruct (IH x) as (pre & post & Heq & Hpre & Hpost).
      pose proof (max_from_ge key x l) as Hx.
      exists (best :: pre), post. split; [by rewrite Heq|]. split; [|done].
      intros y [->|Hy]%elem_of_cons; [lia | by apply Hpre].
    + destruct (IH best) as (pre & post & Heq & Hpre & Hpost).
      remember (max_from key best l) as m eqn:Hm. clear Hm.
      destruct pre as [|p pre]; cbn in Heq; injection Heq as -> ->.
      * exists [], (x :: post). split; [done|].
        split; [intros y Hy; by apply elem_of_nil in Hy|].
        intros y [->|Hy]%elem_of_cons; [lia | by apply Hpost].
      * exists (p :: x :: pre), post. split; [done|]. split; [|done].
        assert (key p < key m) by (apply Hpre; by left).
        intros y [->|[->|Hy]%elem_of_cons]%elem_of_cons; [done|lia|].
        apply Hpre. by right.
Qed.

(** ** Removing duplicates *)

Lemma fromkeys_acc_elem_of (seen l : list string) (x : string) :
  x ∈ fromkeys_acc seen l <-> x ∈ seen \/ x ∈ l.
Proof.
  revert seen. induction l as [|y l IH]; intros seen; cbn [fromkeys_acc].
  - rewrite elem_of_reverse, elem_of_nil. tauto.
  - destruct (decide (y ∈ seen)) as [Hin|Hout]; rewrite IH, !elem_of_cons.
    + split; [tauto|]. intros [?|[->|?]]; auto.
    + tauto.
Qed.

Lemma fromkeys_acc_NoDup (seen l : list string) :
  NoDup seen -> NoDup (fromkeys_acc seen l).
Proof.
  revert seen. induction l as [|y l IH]; intros seen Hnd; cbn [fromkeys_acc].
  - by rewrite reverse_Permutation.
  - destruct (decide (y ∈ seen)) as [Hin|Hout]; apply IH; [done|].
    by apply NoDup_cons.
Qed.

Lemma fromkeys_acc_app (seen l1 l2 : list string) :
  fromkeys_acc seen (l1 ++ l2) = fromkeys_acc (reverse (fromkeys_acc seen l1)) l2.
Proof.
  revert seen. induction l1 as [|y l1 IH]; intros seen; cbn [fromkeys_acc app].
  - by rewrite reverse_involutive.
  - destruct (decide (y ∈ seen)); apply IH.
Qed.

Lemma fromkeys_acc_keeps_seen (seen l : list string) :
  exists rest, fromkeys_acc seen l = reverse seen ++ rest.
Proof.
  revert seen. induction l as [|y l IH]; intros seen; cbn [fromkeys_acc].
  - exists []. by rewrite app_nil_r.
  - destruct (decide (y ∈ seen)) as [Hin|Hout]; [apply IH|].
    destruct (IH (y :: seen)) as [rest ->]. exists (y :: rest).
    by rewrite reverse_cons, <- app_assoc.
Qed.

Lemma fromkeys_elem_of (l : list string) (x : string) : x ∈ fromkeys l <-> x ∈ l.
Proof. unfold fromkeys. rewrite fromkeys_acc_elem_of, elem_of_nil. tauto. Qed.

Lemma fromkeys_NoDup (l : list string) : NoDup (fromkeys l).
Proof. apply fromkeys_acc_NoDup, NoDup_nil_2. Qed.

(** A key stands right after the distinct keys that come before its
    first occurrence. *)
Lemma fromkeys_first_occurrence (l1 l2 : list string) (x : string) :
  x ∉ l1 -> exists rest, fromkeys (l1 ++ x :: l2) = fromkeys l1 ++ x :: rest.
Proof.
  intros Hx. unfold fromkeys. rewrite fromkeys_acc_app. cbn [fromkeys_acc].
  rewrite decide_False by (by rewrite elem_of_reverse, fromkeys_acc_elem_of, elem_of_nil; tauto).
  destruct (fromkeys_acc_keeps_seen (x :: reverse (fromkeys_acc [] l1)) l2) as [rest ->].
  exists rest. by rewrite reverse_cons, reverse_involutive, <- app_assoc.
Qed.

Lemma fromkeys_nil_iff (l : list string) : fromkeys l = [] <-> l = [].
Proof.
  split; [|by intros ->]. intros H. destruct l as [|x l]; [done|].
  assert (Hx : x ∈ fromkeys (x :: l)) by (apply fromkeys_elem_of; by left).
  rewrite H in Hx. by apply elem_of_nil in Hx.
Qed.

Example fromkeys_keeps_first :
  fromkeys ["b"; "a"; "b"; "c"; "a"] = ["b"; "a"; "c"].
Proof. reflexivity. Qed.

(** [x] stands somewhere before [y] in [l]. *)
Definition precedes (x y : string) (l : list string) : Prop :=
  exists l1 l2 l3, l = l1 ++ x :: l2 ++ y :: l3.

(** Both occur in [l], and [x] occurs before the first occurrence of
    [y]: the first occurrence of [x] comes before that of [y]. *)
Definition first_occurs_before (x y : string) (l : list string) : Prop :=
  x <> y /\ exists l1 l2, l = l1 ++ x :: l2 /\ (y ∉ l1) /\ (y ∈ l2).

Lemma lookup_second_mark (x y : string) (l1 l2 l3 : list string) :
  (l1 ++ x :: l2 ++ y :: l3) !! (length l1 + S (length l2))%nat = Some y.
Proof.
  replace (l1 ++ x :: l2 ++ y :: l3) with ((l1 ++ x :: l2) ++ y :: l3)
    by (by rewrite <- app_assoc).
  apply list_lookup_middle. rewrite List.length_app. reflexivity.
Qed.

Lemma precedes_NoDup_asym (x y : string) (l : list string) :
  NoDup l -> precedes x y l -> precedes y x l -> False.
Proof.
  intros Hnd (a1 & a2 & a3 & Ha) (b1 & b2 & b3 & Hb).
  assert (Hx1 : l !! length a1 = Some x) by (rewrite Ha; by apply list_lookup_middle).
  assert (Hy1 : l !! (length a1 + S (length a2))%nat = Some y)
    by (rewrite Ha; apply lookup_second_mark).
  assert (Hy2 : l !! length b1 = Some y) by (rewrite Hb; by apply list_lookup_middle).
  assert (Hx2 : l !! (length b1 + S (length b2))%nat = Some x)
    by (rewrite Hb; apply lookup_second_mark).
  pose proof (NoDup_lookup _ _ _ _ Hnd Hx1 Hx2) as E1.
  pose proof (NoDup_lookup _ _ _ _ Hnd Hy1 Hy2) as E2.
  lia.
Qed.

(** The part of a list before the first occurrence of [x] lies inside
    the part before any occurrence of [x]. *)
Lemma before_first_occurrence (x : string) (l1 l2 m1 m2 : list string) :
  l1 ++ x :: l2 = m1 ++ x :: m2 -> x ∉ m1 -> forall y, y ∈ m1 -> y ∈ l1.
Proof.
  intros Heq Hxm y Hy.
  assert (Hlen : (length m1 <= length l1)%nat).
  { destruct (decide (length m1 <= length l1)%nat) as [|Hgt]; [done|].
    exfalso. apply Hxm.
    assert (Hx : (l1 ++ x :: l2) !! length l1 = Some x) by by apply list_lookup_middle.
    rewrite Heq, lookup_app_l in Hx by lia.
    by apply list_elem_of_lookup_2 in Hx. }
  assert (Hm1 : m1 = take (length m1) l1).
  { rewrite <- (take_app_le l1 (x :: l2)) by done.
    by rewrite Heq, take_app_length. }
  rewrite Hm1 in Hy. apply elem_of_take in Hy as (i & Hi & _).
  by apply list_elem_of_lookup_2 in Hi.
Qed.

Lemma fromkeys_first_occurs_before (x y : string) (l : list string) :
  first_occurs_before x y l -> precedes x y (fromkeys l).
Proof.
  intros (Hne & l1 & l2 & -> & Hy1 & Hy2).
  assert (Hx : x ∈ l1 ++ x :: l2) by (rewrite elem_of_app, elem_of_cons; auto).
  destruct (list_elem_of_split_l _ _ Hx) as (m1 & m2 & Hm & Hxm).
  assert (Hym : y ∉ m1).
  { intros Hin. apply Hy1. by apply (before_first_occurrence x l1 l2 m1 m2). }
  destruct (fromkeys_first_occurrence m1 m2 x Hxm) as [rest Hrest].
  assert (Hy : y ∈ fromkeys (m1 ++ x :: m2)).
  { apply fromkeys_elem_of. rewrite <- Hm, elem_of_app, elem_of_cons. auto. }
  rewrite Hm, Hrest.
  rewrite Hrest, elem_of_app, elem_of_cons, fromkeys_elem_of in Hy.
  destruct Hy as [? | [? | Hy]]; [done | congruence |].
  apply list_elem_of_split in Hy as (r1 & r2 & ->).
  by exists (fromkeys m1), r1, r2.
Qed.

(** The order of the distinct keys is the order of their first
    occurrences. *)
Lemma fromkeys_order (x y : string) (l : list string) :
  precedes x y (fromkeys l) <-> first_occurs_before x y l.
Proof.
  split; [|apply fromkeys_first_occurs_before].
  intros Hxy. pose proof (fromkeys_NoDup l) as Hnd.
  assert (Hne : x <> y).
  { intros ->. by apply (precedes_NoDup_asym y y (fromkeys l)). }
  assert (Hx : x ∈ l).
  { destruct Hxy as (u1 & u2 & u3 & Hu). apply fromkeys_elem_of.
    rewrite Hu, elem_of_app, elem_of_cons. auto. }
  assert (Hy : y ∈ l).
  { destruct Hxy as (u1 & u2 & u3 & Hu). apply fromkeys_elem_of.
    rewrite Hu, elem_of_app, elem_of_cons, elem_of_app, elem_of_cons. auto. }
  destruct (list_elem_of_split_l _ _ Hx) as (l1 & l2 & -> & Hx1).
  split; [done|]. exists l1, l2. split; [done|].
  assert (Hy1 : y ∉ l1).
  { intros Hin. destruct (list_elem_of_split_l _ _ Hin) as (m1 & m2 & -> & Hym).
    apply (precedes_NoDup_asym x y _ Hnd Hxy).
    apply fromkeys_first_occurs_before. split; [done|].
    exists m1, (m2 ++ x :: l2). split; [by rewrite <- app_assoc|].
    split; [|rewrite elem_of_app, elem_of_cons; auto].
    intros Hxm. apply Hx1. rewrite elem_of_app. by left. }
  split; [done|].
  rewrite elem_of_app, elem_of_cons in Hy. destruct Hy as [? | [? | ?]]; [done|congruence|done].
Qed.

Lemma NoDup_count_one (l : list string) (x : string) :
  NoDup l -> x ∈ l -> length (filter (fun y => y = x) l) = 1%nat.
Proof.
  intros Hnd Hx. apply list_elem_of_split in Hx as (l1 & l2 & ->).
  apply NoDup_app in Hnd as (_ & Hdisj & Hnd2).
  apply NoDup_cons in Hnd2 as (Hx2 & _).
  rewrite filter_app, filter_cons_True, length_app by done. cbn [length].
  assert (Hnone : forall l', x ∉ l' -> filter (fun y => y = x) l' = []).
  { intros l' Hl'. induction l' as [|z l' IH]; [done|].
    rewrite not_elem_of_cons in Hl'. destruct Hl' as [Hz Hl'].
    rewrite filter_cons_False by congruence. by apply IH. }
  rewrite (Hnone l2 Hx2), (Hnone l1); [done|].
  intros Hin. apply (Hdisj x Hin). by left.
Qed.

(** ** Runs of the reviewer *)

Lemma outcome_map_strings {B} (f : value -> outcome B) (g : string -> B)
    (l : list string) :
  (forall s, f (VStr s) = Return (g s)) ->
  outcome_map f (VStr <$> l) = Return (g <$> l).
Proof.
  intros Hf. induction l as [|s l IH]; [done|].
  cbn [fmap list_fmap outcome_map]. fold (fmap (M := list) VStr l).
  rewrite Hf, IH. reflexivity.
Qed.

(** The first element of a list of values that is not a [str]. *)
Lemma outcome_map_first_non_string {B} (f : value -> outcome B) (g : string -> B)
    (pre : list string) (v : value) (post : list value) (e : exn) :
  (forall s, f (VStr s) = Return (g s)) ->
  f v = Raise e ->
  outcome_map f ((VStr <$> pre) ++ v :: post) = Raise e.
Proof.
  intros Hf Hv. induction pre as [|s pre IH].
  - cbn. by rewrite Hv.
  - cbn [fmap list_fmap app outcome_map]. fold (fmap (M := list) VStr pre).
    by rewrite Hf, IH.
Qed.

Definition bullet (resource : string) : string := "- " +:+ resource +:+ nl.

Lemma add_bullets_join (section : string) (resources : list string) :
  foldl (fun acc resource => acc +:+ "- " +:+ resource +:+ nl) section resources
  = section +:+ Str.join (bullet <$> resources).
Proof.
  revert section. induction resources as [|r resources IH]; intros section.
  - cbn. by rewrite append_empty_r.
  - cbn [foldl fmap list_fmap Str.join foldr]. rewrite IH.
    fold (fmap (M := list) bullet resources). fold (Str.join (bullet <$> resources)).
    unfold bullet. by rewrite !append_assoc.
Qed.

Section ReviewerProperties.

Context `{lib : PyLib}.

(** The label [max] picks among the labels of a non-empty list of
    comments. *)
Definition overall_label (c : string) (cs : list string) : string :=
  let severities := label_by_counts <$> (c :: cs) in
  max_from (py_count severities) (label_by_counts c) (label_by_counts <$> cs).

(** The one request a review makes. *)
Definition review_request (self : EmpathticCodeReviewer) (code_snippet : value)
    (c : string) (cs : list string) : request :=
  {| model := "gpt-4";
     system_content := _create_system_prompt self (overall_label c cs);
     user_content := user_prompt code_snippet (VStr <$> (c :: cs));
     temperature := "0.7";
     max_tokens := 2500 |}.

Lemma generate_empathetic_review_run
    (self : EmpathticCodeReviewer) (code_snippet : value)
    (c : string) (cs : list string) (log : list request) :
  _generate_empathetic_review self code_snippet (VStr <$> (c :: cs)) log
  = (match chat_completions_create (client self) log
             (review_request self code_snippet c cs) with
     | Return content => Return (Str.strip content)
     | Raise e => Raise (mk_exn Exception_ ("Error generating review: " +:+ exn_str e))
     end,
     log ++ [review_request self code_snippet c cs]).
Proof.
  unfold _generate_empathetic_review.
  rewrite (outcome_map_strings _ label_by_counts)
    by apply assess_comment_severity_label.
  unfold mbind, M_bind, lift, try_except, create, raise, lift, mret, M_ret.
  cbn [fmap list_fmap py_max].
  fold (fmap (M := list) label_by_counts cs). fold (fmap (M := list) VStr cs).
  change (max_from _ _ _) with (overall_label c cs).
  change (mk_request _ _ _ _ _) with (review_request self code_snippet c cs).
  by destruct (chat_completions_create _ _ _).
Qed.

Lemma enhance_with_resources_strings
    (self : EmpathticCodeReviewer) (review_content snippet : string)
    (comments : list string) :
  let all_resources :=
    concat ((fun c => links_of resource_rules c snippet) <$> comments) in
  _enhance_with_resources self review_content (VStr snippet) (VStr <$> comments)
  = Return (review_content
            +:+ match fromkeys all_resources with
                | [] => EmptyString
                | _ :: _ =>
                    resource_section_head
                    +:+ Str.join (bullet <$> fromkeys all_resources)
                end).
Proof.
  intros all_resources. unfold _enhance_with_resources.
  rewrite (outcome_map_strings _ (fun c => links_of resource_rules c snippet))
    by (intros s; apply get_relevant_resources_links).
  cbn [mbind outcome_mbind outcome_bind]. fold all_resources.
  destruct (fromkeys all_resources) as [|r rs] eqn:E.
  - cbn. by rewrite append_empty_r.
  - unfold add_bullets. by rewrite add_bullets_join.
Qed.

(** A snippet that is not a [str] has no [lower]: the loop over the
    comments raises at the first comment. *)
Lemma enhance_with_resources_bad_snippet
    (self : EmpathticCodeReviewer) (review_content : string) (code_snippet : value)
    (c : string) (cs : list string) :
  (forall s, code_snippet <> VStr s) ->
  _enhance_with_resources self review_content code_snippet (VStr <$> (c :: cs))
  = Raise (mk_exn AttributeError
             ("'" +:+ type_name code_snippet +:+ "' object has no attribute 'lower'")).
Proof.
  intros Hns. unfold _enhance_with_resources.
  cbn [fmap list_fmap outcome_map]. unfold _get_relevant_resources at 1.
  destruct code_snippet; try reflexivity. by destruct (Hns s).
Qed.

(** What [generate_review_report] does on an input of the expected
    shape whose comments are all strings. *)
Lemma generate_review_report_run
    (self : EmpathticCodeReviewer) (input_data : gmap string value)
    (code_snippet : value) (c : string) (cs : list string) (log : list request) :
  input_data !! "code_snippet" = Some code_snippet ->
  input_data !! "review_comments" = Some (VList (VStr <$> (c :: cs))) ->
  generate_review_report self input_data log
  = (match chat_completions_create (client self) log
             (review_request self code_snippet c cs) with
     | Return content =>
         match _enhance_with_resources self (Str.strip content) code_snippet
                 (VStr <$> (c :: cs)) with
         | Return enhanced_review => Return (report_header +:+ enhanced_review)
         | Raise e =>
             Raise (mk_exn Exception_
                      ("Failed to generate review report: " +:+ exn_str e))
         end
     | Raise e =>
         Raise (mk_exn Exception_
                  ("Failed to generate review report: "
                   +:+ "Error generating review: " +:+ exn_str e))
     end,
     log ++ [review_request self code_snippet c cs]).
Proof.
  intros Hsnippet Hcomments. unfold generate_review_report, try_except, has_key.
  rewrite Hsnippet, Hcomments.
  rewrite !bool_decide_eq_true_2 by (by eexists). cbn [negb orb].
  unfold getitem. rewrite Hsnippet, Hcomments.
  unfold mbind at 1 2, M_bind, lift.
  cbn [fmap list_fmap]. fold (fmap (M := list) VStr cs).
  unfold mbind at 1, M_bind.
  change (VStr c :: (VStr <$> cs)) with (VStr <$> (c :: cs)).
  rewrite generate_empathetic_review_run.
  destruct (chat_completions_create _ _ _) as [content|e]; [|done].
  unfold mbind, M_bind, lift.
  by destruct (_enhance_with_resources _ _ _ _).
Qed.

End ReviewerProperties.

(** ** The decoder where it reads no string, object, array or number

    [json.loads] is the standard library's.  On a text that, after its
    leading whitespace, starts none of a string, an object, an array or
    a number, what it does is short enough to write down: the scanner
    compares the text with five names, and [decode] then wants nothing
    but whitespace up to the end.  [loads_simple] is [json.loads] on
    such texts and says nothing ([None]) on the others.  Positions are
    counted in characters; every character before a position reported
    here is ASCII, so the count in bytes is the same. *)

Definition decimal (n : nat) : string := NilZero.string_of_uint (Nat.to_uint n).

Definition is_newline (c : ascii) : bool := Ascii.eqb c (ascii_of_N 10).

(** [doc.count('\n', 0, pos)] *)
Fixpoint count_newlines (doc : string) (pos : nat) : nat :=
  match pos, doc with
  | S pos', String c doc' =>
      (if is_newline c then 1 else 0) + count_newlines doc' pos'
  | _, _ => 0
  end%nat.

(** [doc.rfind('\n', 0, pos)], for the part of [doc] that starts at
    index [i]; [last] is the index found so far, -1 when none. *)
Fixpoint rfind_newline (doc : string) (pos : nat) (i last : Z) : Z :=
  match pos, doc with
  | S pos', String c doc' =>
      rfind_newline doc' pos' (i + 1) (if is_newline c then i else last)
  | _, _ => last
  end.

(** The text of [JSONDecodeError(msg, doc, pos)]. *)
Definition errmsg (msg doc : string) (pos : nat) : string :=
  let lineno := (count_newlines doc pos + 1)%nat in
  let colno := Z.of_nat pos - rfind_newline doc pos 0 (-1) in
  msg +:+ ": line " +:+ decimal lineno +:+ " column " +:+ decimal (Z.to_nat colno)
  +:+ " (char " +:+ decimal pos +:+ ")".

(** The whitespace of [WHITESPACE]: space, tab, line feed, carriage
    return. *)
Definition json_ws (c : ascii) : bool :=
  let n := N_of_ascii c in ((n =? 32) || (n =? 9) || (n =? 10) || (n =? 13))%N.

(** [WHITESPACE.match(s, 0).end()]: the length of the leading whitespace. *)
Fixpoint ws_run (s : string) : nat :=
  match s with
  | String c s' => if json_ws c then S (ws_run s') else 0%nat
  | EmptyString => 0%nat
  end.

Fixpoint drop_chars (n : nat) (s : string) : string :=
  match n, s with
  | S n', String _ s' => drop_chars n' s'
  | _, _ => s
  end.

(** The bit patterns of [float('nan')] and [float('inf')]. *)
Definition nan_bits : Z := 0x7ff8000000000000.
Definition inf_bits : Z := 0x7ff0000000000000.

(** The names the scanner knows, apart from [-Infinity], with the
    value of each. *)
Definition scanner_names : list (string * value) :=
  [("null", VNone); ("true", VBool true); ("false", VBool false);
   ("NaN", VFloat nan_bits); ("Infinity", VFloat inf_bits)].

(** The first name that the text starts with, with its value and
    length. *)
Fixpoint scan_name (names : list (string * value)) (text : string)
    : option (value * nat) :=
  match names with
  | [] => None
  | (name, v) :: names' =>
      if Str.startswith name text then Some (v, String.length name)
      else scan_name names' text
  end.

(** The characters that start a string, an object, an array or a
    number. *)
Definition starts_compound (c : ascii) : bool :=
  let n := N_of_ascii c in
  ((n =? 34) || (n =? 123) || (n =? 91) || (n =? 45)
   || ((48 <=? n) && (n <=? 57)))%N.

Definition bom : string := Str.of_bytes [239; 187; 191]%N.

Definition loads_simple (s : string) : option decoded :=
  if Str.startswith bom s then
    Some (DecodeError (errmsg "Unexpected UTF-8 BOM (decode using utf-8-sig)" s 0))
  else
    let idx := ws_run s in
    let text := drop_chars idx s in
    match text with
    | EmptyString => Some (DecodeError (errmsg "Expecting value" s idx))
    | String c _ =>
        if starts_compound c then None
        else
          match scan_name scanner_names text with
          | None => Some (DecodeError (errmsg "Expecting value" s idx))
          | Some (obj, n) =>
              let end_ := (idx + n)%nat in
              let end_ := (end_ + ws_run (drop_chars end_ s))%nat in
              if (end_ =? String.length s)%nat then Some (Document obj)
              else Some (DecodeError (errmsg "Extra data" s end_))
          end
    end.



Example loads_padded_null : loads_simple (Str.of_bytes [32; 110; 117; 108; 108; 32]%N)
                            = Some (Document VNone).
Proof. reflexivity. Qed.

Example loads_nul :
  loads_simple "nul" = Some (DecodeError "Expecting value: line 1 column 1 (char 0)").
Proof. reflexivity. Qed.

Example loads_extra :
  loads_simple "null x" = Some (DecodeError "Extra data: line 1 column 6 (char 5)").
Proof. reflexivity. Qed.

Example loads_second_line :
  loads_simple (nl +:+ "  tru")
  = Some (DecodeError "Expecting value: line 2 column 3 (char 3)").
Proof. reflexivity. Qed.

Example loads_blank :
  loads_simple (Str.of_bytes [32; 10; 13; 9]%N)
  = Some (DecodeError "Expecting value: line 2 column 3 (char 4)").
Proof. reflexivity. Qed.

Example loads_third_line :
  loads_simple ("true" +:+ nl +:+ nl +:+ "false")
  = Some (DecodeError "Extra data: line 3 column 1 (char 6)").
Proof. reflexivity. Qed.

Example loads_empty :
  loads_simple EmptyString
  = Some (DecodeError "Expecting value: line 1 column 1 (char 0)").
Proof. reflexivity. Qed.

Example loads_after_bom :
  loads_simple (bom +:+ "null")
  = Some (DecodeError
            "Unexpected UTF-8 BOM (decode using utf-8-sig): line 1 column 1 (char 0)").
Proof. reflexivity. Qed.

Example loads_object_not_covered : loads_simple "{}" = None.
Proof. reflexivity. Qed.

(** ** JSON texts

    What RFC 8259 calls a JSON text, to have something to hold against
    what the decoder accepts: whitespace, a value, whitespace, where a
    value is one of the names [null], [true] and [false], a number, a
    string, an array or an object. *)

Fixpoint all_ws (s : string) : bool :=
  match s with
  | EmptyString => true
  | String c s' => json_ws c && all_ws s'
  end.

Definition is_digit (c : ascii) : bool :=
  let n := N_of_ascii c in ((48 <=? n) && (n <=? 57))%N.

Definition is_digit19 (c : ascii) : bool :=
  let n := N_of_ascii c in ((49 <=? n) && (n <=? 57))%N.

Definition is_hex (c : ascii) : bool :=
  let n := N_of_ascii c in
  (((48 <=? n) && (n <=? 57)) || ((65 <=? n) && (n <=? 70))
   || ((97 <=? n) && (n <=? 102)))%N.

Fixpoint all_digits (s : string) : bool :=
  match s with
  | EmptyString => true
  | String c s' => is_digit c && all_digits s'
  end.

Inductive json_int : string -> Prop :=
| ji_zero : json_int "0"
| ji_digits (c : ascii) (ds : string) :
    is_digit19 c = true -> all_digits ds = true -> json_int (String c ds).

Inductive json_frac : string -> Prop :=
| jf_none : json_frac EmptyString
| jf_digits (c : ascii) (ds : string) :
    is_digit c = true -> all_digits ds = true ->
    json_frac ("." +:+ String c ds).

Inductive json_exp : string -> Prop :=
| jx_none : json_exp EmptyString
| jx_digits (e sign : string) (c : ascii) (ds : string) :
    e = "e" \/ e = "E" ->
    sign = EmptyString \/ sign = "+" \/ sign = "-" ->
    is_digit c = true -> all_digits ds = true ->
    json_exp (e +:+ sign +:+ String c ds).

Inductive json_number : string -> Prop :=
| jn_parts (minus int frac exp : string) :
    minus = EmptyString \/ minus = "-" ->
    json_int int -> json_frac frac -> json_exp exp ->
    json_number (minus +:+ int +:+ frac +:+ exp).

(** A character that may stand unescaped in a string: not a control
    character, not the quotation mark, not the backslash. *)
Definition unescaped (c : ascii) : bool :=
  let n := N_of_ascii c in
  ((32 <=? n) && negb (n =? 34) && negb (n =? 92))%N.

Definition backslash : string := String (ascii_of_N 92) EmptyString.

(** The characters between the quotation marks of a string. *)
Inductive json_chars : string -> Prop :=
| jc_end : json_chars EmptyString
| jc_plain (c : ascii) (s : string) :
    unescaped c = true -> json_chars s -> json_chars (String c s)
| jc_escape (e s : string) :
    e ∈ [dq; backslash; "/"; "b"; "f"; "n"; "r"; "t"] ->
    json_chars s -> json_chars (backslash +:+ e +:+ s)
| jc_unicode (h1 h2 h3 h4 : ascii) (s : string) :
    is_hex h1 = true -> is_hex h2 = true -> is_hex h3 = true -> is_hex h4 = true ->
    json_chars s ->
    json_chars (backslash +:+ "u"
                +:+ String h1 (String h2 (String h3 (String h4 s)))).

Inductive json_value : string -> Prop :=
| jv_null : json_value "null"
| jv_true : json_value "true"
| jv_false : json_value "false"
| jv_number (n : string) : json_number n -> json_value n
| jv_string (body : string) : json_chars body -> json_value (dq +:+ body +:+ dq)
| jv_array_empty (w : string) : all_ws w = true -> json_value ("[" +:+ w +:+ "]")
| jv_array (elements : string) :
    json_elements elements -> json_value ("[" +:+ elements +:+ "]")
| jv_object_empty (w : string) : all_ws w = true -> json_value ("{" +:+ w +:+ "}")
| jv_object (members : string) :
    json_members members -> json_value ("{" +:+ members +:+ "}")
with json_elements : string -> Prop :=
| je_last (w1 v w2 : string) :
    all_ws w1 = true -> json_value v -> all_ws w2 = true ->
    json_elements (w1 +:+ v +:+ w2)
| je_more (w1 v w2 elements : string) :
    all_ws w1 = true -> json_value v -> all_ws w2 = true ->
    json_elements elements ->
    json_elements (w1 +:+ v +:+ w2 +:+ "," +:+ elements)
with json_members : string -> Prop :=
| jm_last (w1 key w2 w3 v w4 : string) :
    all_ws w1 = true -> json_chars key -> all_ws w2 = true ->
    all_ws w3 = true -> json_value v -> all_ws w4 = true ->
    json_members (w1 +:+ dq +:+ key +:+ dq +:+ w2 +:+ ":" +:+ w3 +:+ v +:+ w4)
| jm_more (w1 key w2 w3 v w4 members : string) :
    all_ws w1 = true -> json_chars key -> all_ws w2 = true ->
    all_ws w3 = true -> json_value v -> all_ws w4 = true ->
    json_members members ->
    json_members (w1 +:+ dq +:+ key +:+ dq +:+ w2 +:+ ":" +:+ w3 +:+ v +:+ w4
                  +:+ "," +:+ members).

Definition json_text (s : string) : Prop :=
  exists w1 v w2,
    all_ws w1 = true /\ json_value v /\ all_ws w2 = true /\ s = w1 +:+ v +:+ w2.

(** The characters a value can start with: those of a string, an
    object, an array or a number, and the first letters of the three
    names. *)
Definition starts_value (c : ascii) : bool :=
  starts_compound c
  || Ascii.eqb c "n"%char || Ascii.eqb c "t"%char || Ascii.eqb c "f"%char.

Lemma digit19_starts_value (c : ascii) : is_digit19 c = true -> starts_value c = true.
Proof.
  unfold is_digit19, starts_value, starts_compound.
  intros [H1 H2]%andb_true_iff. apply N.leb_le in H1, H2.
  rewrite (proj2 (N.leb_le 48 _)) by lia. rewrite (proj2 (N.leb_le _ 57)) by lia.
  cbn [andb]. by rewrite !orb_true_r.
Qed.

Lemma json_value_starts (v : string) :
  json_value v -> exists c rest, v = String c rest /\ starts_value c = true.
Proof.
  destruct 1 as [| | |n Hn|body _|w _|es _|w _|ms _];
    try (by eexists _, _; split; [reflexivity|]).
  destruct Hn as [minus int frac exp [->| ->] Hint _ _].
  - destruct Hint as [|c ds Hc _].
    + by eexists _, _; split; [reflexivity|].
    + exists c, (ds +:+ frac +:+ exp). split; [reflexivity|].
      by apply digit19_starts_value.
  - by eexists _, _; split; [reflexivity|].
Qed.

Lemma json_text_first_char (c : ascii) (rest : string) :
  json_text (String c rest) -> json_ws c = true \/ starts_value c = true.
Proof.
  intros ([|c1 w1] & v & w2 & Hw1 & Hv & _ & Heq).
  - right. destruct (json_value_starts v Hv) as (c' & rest' & -> & Hc).
    by injection Heq as -> _.
  - left. injection Heq as -> _. cbn [all_ws] in Hw1.
    by apply andb_true_iff in Hw1 as [? _].
Qed.


Lemma Infinity_is_not_json : ~ json_text "Infinity".
Proof. intros [H|H]%json_text_first_char; discriminate H. Qed.

Example null_is_json : json_text " null".
Proof. exists " ", "null", EmptyString. repeat split; constructor. Qed.







Lemma startswith_append (name rest : string) : Str.startswith name (name +:+ rest) = true.
Proof.
  induction name as [|c name IH]; [done|].
  change (String c name +:+ rest) with (String c (name +:+ rest)).
  cbn [Str.startswith]. by rewrite Ascii.eqb_refl.
Qed.


(** ** Claims about the run *)

Lemma assess_labels (self : EmpathticCodeReviewer) (comments : list string) :
  Forall2 (fun comment severity =>
             _assess_comment_severity self (VStr comment) = Return severity)
          comments (label_by_counts <$> comments).
Proof.
  apply Forall2_fmap_r, Forall_Forall2_diag, Forall_forall.
  intros comment _. apply assess_comment_severity_label.
Qed.

Lemma label_has_adjustment (comment : string) :
  (label_by_counts comment,
   dict_get severity_adjustments (label_by_counts comment) "")
  ∈ severity_adjustments.
Proof.
  destruct (label_by_counts_cases comment) as [-> | [-> | ->]];
    cbn; repeat constructor.
Qed.

(** The shape the report expects of its input: both keys, and a
    non-empty list under ["review_comments"]. *)
Definition well_shaped (input_data : gmap string value) : Prop :=
  is_Some (input_data !! "code_snippet")
  /\ exists c cs, input_data !! "review_comments" = Some (VList (c :: cs)).

Definition missing_keys_text : string :=
  "Input must contain 'code_snippet' and 'review_comments' keys".

Definition not_a_list_text : string :=
  "'review_comments' must be a non-empty list".

Section Claims.

Context `{lib : PyLib}.

(** C3: for every non-empty list of comments, the request sent to the
    model carries as system prompt the base prompt followed by the
    adjustment for the overall severity, and the overall severity is,
    among the per-comment labels, the earliest one that occurs most
    often: no label occurs more often, and every label before its
    first occurrence occurs strictly less often. *)
Theorem system_prompt_follows_most_frequent_label
    (self : EmpathticCodeReviewer) (code_snippet : value)
    (c : string) (cs : list string) (log : list request) :
  exists severities overall adjustment before after sent,
    Forall2 (fun comment severity =>
               _assess_comment_severity self (VStr comment) = Return severity)
            (c :: cs) severities
    /\ severities = before ++ overall :: after
    /\ (forall s, s ∈ before -> py_count severities s < py_count severities overall)
    /\ (forall s, s ∈ severities -> py_count severities s <= py_count severities overall)
    /\ (overall, adjustment) ∈ severity_adjustments
    /\ (_generate_empathetic_review self code_snippet (VStr <$> (c :: cs)) log).2
       = log ++ [sent]
    /\ system_content sent = base_prompt +:+ adjustment.
Proof.
  pose proof (max_from_first_maximal
                (py_count (label_by_counts <$> (c :: cs)))
                (label_by_counts c) (label_by_counts <$> cs)) as Hmax.
  change (max_from _ _ _) with (overall_label c cs) in Hmax.
  destruct Hmax as (before & after & Hsplit & Hbefore & Hafter).
  set (severities := label_by_counts <$> (c :: cs)) in *.
  assert (Hin : overall_label c cs ∈ severities).
  { unfold severities. cbn [fmap list_fmap]. fold (fmap (M := list) label_by_counts cs).
    rewrite Hsplit, elem_of_app, elem_of_cons. auto. }
  exists severities, (overall_label c cs),
    (dict_get severity_adjustments (overall_label c cs) ""),
    before, after, (review_request self code_snippet c cs).
  split; [apply assess_labels|]. split; [exact Hsplit|]. split; [exact Hbefore|].
  split; [|split; [|split]].
  - intros s. unfold severities at 1. cbn [fmap list_fmap].
    fold (fmap (M := list) label_by_counts cs).
    rewrite Hsplit, elem_of_app, elem_of_cons.
    intros [Hs | [-> | Hs]]; [|lia|by apply Hafter].
    specialize (Hbefore s Hs). lia.
  - apply list_elem_of_fmap in Hin as (comment & -> & _).
    apply label_has_adjustment.
  - by rewrite generate_empathetic_review_run.
  - reflexivity.
Qed.

(** C7: when the chat-completion call raises, the review raises a
    generic exception whose text is the underlying error text after
    "Error generating review: ", the report raises a generic
    exception whose text is that text after "Failed to generate
    review report: ", nothing is returned, and the one request that
    failed is the only request made. *)
Theorem api_failure_is_wrapped_twice
    (self : EmpathticCodeReviewer) (input_data : gmap string value)
    (code_snippet : value) (c : string) (cs : list string)
    (log : list request) (e : exn) :
  input_data !! "code_snippet" = Some code_snippet ->
  input_data !! "review_comments" = Some (VList (VStr <$> (c :: cs))) ->
  chat_completions_create (client self) log (review_request self code_snippet c cs)
  = Raise e ->
  _generate_empathetic_review self code_snippet (VStr <$> (c :: cs)) log
  = (Raise (mk_exn Exception_ ("Error generating review: " +:+ exn_str e)),
     log ++ [review_request self code_snippet c cs])
  /\ generate_review_report self input_data log
     = (Raise (mk_exn Exception_
                 ("Failed to generate review report: "
                  +:+ "Error generating review: " +:+ exn_str e)),
        log ++ [review_request self code_snippet c cs])
  /\ occurs (exn_str e)
       ("Failed to generate review report: "
        +:+ "Error generating review: " +:+ exn_str e).
Proof.
  intros Hsnippet Hcomments Hfail. split; [|split].
  - by rewrite generate_empathetic_review_run, Hfail.
  - by rewrite (generate_review_report_run _ _ _ _ _ _ Hsnippet Hcomments), Hfail.
  - exists "Failed to generate review report: Error generating review: ", EmptyString.
    by rewrite append_empty_r.
Qed.

(** C1: an input that lacks one of the two keys, or whose
    ["review_comments"] is not a non-empty list, makes the report
    raise with the request log untouched, so before any call to the
    model; and nothing else about the input is checked: whatever the
    value of the snippet and whatever the comment strings say, an
    input of the expected shape reaches the model. *)
Theorem ill_shaped_input_raises_before_any_call
    (self : EmpathticCodeReviewer) (input_data : gmap string value)
    (log : list request) :
  (~ well_shaped input_data ->
   generate_review_report self input_data log
   = (Raise (mk_exn Exception_
               ("Failed to generate review report: "
                +:+ (if decide (is_Some (input_data !! "code_snippet")
                                /\ is_Some (input_data !! "review_comments"))
                     then not_a_list_text else missing_keys_text))),
      log))
  /\ (forall code_snippet c cs,
        input_data !! "code_snippet" = Some code_snippet ->
        input_data !! "review_comments" = Some (VList (VStr <$> (c :: cs))) ->
        (generate_review_report self input_data log).2
        = log ++ [review_request self code_snippet c cs]).
Proof.
  split.
  - intros Hshape. unfold generate_review_report, try_except, has_key.
    destruct (input_data !! "code_snippet") as [snippet|] eqn:Hs.
    2:{ rewrite bool_decide_eq_false_2 by (by intros [? ?]).
        rewrite decide_False by (by intros [[? ?] _]). reflexivity. }
    rewrite bool_decide_eq_true_2 by (by eexists).
    destruct (input_data !! "review_comments") as [comments|] eqn:Hc.
    2:{ rewrite bool_decide_eq_false_2 by (by intros [? ?]).
        rewrite decide_False by (by intros [_ [? ?]]). reflexivity. }
    rewrite bool_decide_eq_true_2 by (by eexists).
    rewrite decide_True by (split; by eexists).
    cbn [negb orb]. unfold getitem. rewrite Hs, Hc.
    unfold mbind, M_bind, lift, raise, lift.
    destruct comments as [| | | | |[|c cs]|]; try reflexivity.
    destruct Hshape. split; [by eexists|]. by exists c, cs.
  - intros code_snippet c cs Hs Hc.
    by rewrite (generate_review_report_run _ _ _ _ _ _ Hs Hc).
Qed.

(** C5: the section that [_enhance_with_resources] appends lists the
    links triggered by the comments, each of them once however many
    comments trigger it, in the order of their first occurrences
    across the comments taken in list order. *)
Theorem enhance_lists_each_link_once_in_first_occurrence_order
    (self : EmpathticCodeReviewer) (review_content snippet : string)
    (comments : list string) :
  let all_resources :=
    concat ((fun comment => links_of resource_rules comment snippet) <$> comments) in
  exists listed : list string,
    _enhance_with_resources self review_content (VStr snippet) (VStr <$> comments)
    = Return (review_content
              +:+ match listed with
                  | [] => EmptyString
                  | _ :: _ => resource_section_head +:+ Str.join (bullet <$> listed)
                  end)
    /\ NoDup listed
    /\ (forall x, x ∈ listed <-> x ∈ all_resources)
    /\ (forall x, x ∈ all_resources ->
                  length (filter (fun y => y = x) listed) = 1%nat)
    /\ (forall x y, precedes x y listed <-> first_occurs_before x y all_resources).
Proof.
  intros all_resources. exists (fromkeys all_resources).
  split; [apply enhance_with_resources_strings|].
  split; [apply fromkeys_NoDup|].
  split; [intros x; apply fromkeys_elem_of|].
  split; [|intros x y; apply fromkeys_order].
  intros x Hx. apply NoDup_count_one; [apply fromkeys_NoDup|].
  by apply fromkeys_elem_of.
Qed.


End Claims.

(** ** The report around the review *)

Lemma append_eq_self (x y : string) : x +:+ y = x -> y = EmptyString.
Proof.
  intros H. apply (inj (String.append x)). by rewrite append_empty_r.
Qed.

Lemma links_of_nil_iff (table : list rule) (comment snippet : string) :
  links_of table comment snippet = []
  <-> forall r, r ∈ table -> ~ fires comment snippet r.
Proof.
  unfold links_of. split.
  - intros H%fmap_nil_inv r Hr Hf.
    by apply (filter_nil_not_elem_of _ _ r H Hf).
  - intros H. replace (filter (fires comment snippet) table) with (@nil rule); [done|].
    symmetry. apply elem_of_nil_inv. intros r [Hf Hr]%list_elem_of_filter.
    by apply (H r).
Qed.

Lemma concat_nil_iff {A} (ls : list (list A)) :
  concat ls = [] <-> forall l, l ∈ ls -> l = [].
Proof.
  induction ls as [|l ls IH]; cbn [concat].
  - split; [intros _ l Hl; by apply elem_of_nil in Hl | done].
  - split.
    + intros [-> Hls]%app_eq_nil l' [->|Hl']%elem_of_cons; [done|].
      by apply IH.
    + intros H. rewrite (H l) by (by left). apply IH.
      intros l' Hl'. apply H. by right.
Qed.

(** The resource section is left out exactly when no rule fires on any
    comment; the review then comes back unchanged. *)
Lemma enhance_unchanged_iff_no_rule_fires
    (self : EmpathticCodeReviewer) (review_content snippet : string)
    (comments : list string) :
  _enhance_with_resources self review_content (VStr snippet) (VStr <$> comments)
  = Return review_content
  <-> forall comment r,
        comment ∈ comments -> r ∈ resource_rules -> ~ fires comment snippet r.
Proof.
  rewrite enhance_with_resources_strings.
  set (all_resources := concat _).
  assert (Hall : all_resources = [] <->
                 forall comment r, comment ∈ comments -> r ∈ resource_rules ->
                                   ~ fires comment snippet r).
  { unfold all_resources. rewrite concat_nil_iff. split.
    - intros H comment r Hc. apply links_of_nil_iff, H.
      apply list_elem_of_fmap. by exists comment.
    - intros H l (comment & -> & Hc)%list_elem_of_fmap.
      apply links_of_nil_iff. intros r. by apply H. }
  rewrite <- Hall, <- fromkeys_nil_iff.
  destruct (fromkeys all_resources) as [|r rs].
  - by rewrite append_empty_r.
  - split; [|done]. intros [= H]. apply append_eq_self in H. discriminate H.
Qed.

Section Report.

Context `{lib : PyLib}.

(** A successful run returns the header, the stripped content of the
    model as it is, and the resource section when there is one. *)
Lemma generate_review_report_success
    (self : EmpathticCodeReviewer) (input_data : gmap string value)
    (snippet : string) (c : string) (cs : list string)
    (log : list request) (content : string) :
  input_data !! "code_snippet" = Some (VStr snippet) ->
  input_data !! "review_comments" = Some (VList (VStr <$> (c :: cs))) ->
  chat_completions_create (client self) log (review_request self (VStr snippet) c cs)
  = Return content ->
  let all_resources :=
    concat ((fun comment => links_of resource_rules comment snippet) <$> (c :: cs)) in
  generate_review_report self input_data log
  = (Return (report_header +:+ Str.strip content
             +:+ match fromkeys all_resources with
                 | [] => EmptyString
                 | _ :: _ =>
                     resource_section_head
                     +:+ Str.join (bullet <$> fromkeys all_resources)
                 end),
     log ++ [review_request self (VStr snippet) c cs]).
Proof.
  intros Hs Hc Hcontent all_resources.
  rewrite (generate_review_report_run _ _ _ _ _ _ Hs Hc), Hcontent.
  by rewrite enhance_with_resources_strings.
Qed.

(** A comment that is not a string stops the report before the model
    is called: the attribute error of [lower] is wrapped like any
    other. *)
Lemma non_string_comment_raises
    (self : EmpathticCodeReviewer) (input_data : gmap string value)
    (code_snippet : value) (pre : list string) (v : value) (post : list value)
    (log : list request) :
  (forall s, v <> VStr s) ->
  input_data !! "code_snippet" = Some code_snippet ->
  input_data !! "review_comments" = Some (VList ((VStr <$> pre) ++ v :: post)) ->
  generate_review_report self input_data log
  = (Raise (mk_exn Exception_
              ("Failed to generate review report: '" +:+ type_name v
               +:+ "' object has no attribute 'lower'")),
     log).
Proof.
  intros Hv Hs Hc. unfold generate_review_report, try_except, has_key.
  rewrite Hs, Hc. rewrite !bool_decide_eq_true_2 by (by eexists). cbn [negb orb].
  unfold getitem. rewrite Hs, Hc. unfold mbind at 1 2, M_bind, lift.
  assert (Hraise : outcome_map (_assess_comment_severity self)
                     ((VStr <$> pre) ++ v :: post)
                   = Raise (mk_exn AttributeError
                              ("'" +:+ type_name v
                               +:+ "' object has no attribute 'lower'"))).
  { apply (outcome_map_first_non_string _ label_by_counts).
    - apply assess_comment_severity_label.
    - destruct v; try reflexivity. by destruct (Hv s). }
  destruct ((VStr <$> pre) ++ v :: post) as [|c0 cs0] eqn:E.
  { by destruct pre. }
  unfold mbind, M_bind, _generate_empathetic_review, mbind, M_bind, lift.
  by rewrite Hraise.
Qed.

End Report.

(** ** The claims at concrete inputs *)

Definition sample_request (self : EmpathticCodeReviewer) : request :=
  review_request (lib := sample_lib) self (VStr "if flag == True: pass")
    "Variable 'u' is a bad name." ["This function is inefficient."].

Example sample_run :
  generate_review_report (lib := sample_lib) (canned_reviewer "  All good.  ")
    sample_input []
  = (Return (report_header +:+ "All good." +:+ resource_section_head
             +:+ bullet naming_link +:+ bullet recommendations_link
             +:+ bullet performance_link +:+ bullet docstring_link),
     [sample_request (canned_reviewer "  All good.  ")]).
Proof. by vm_compute. Qed.

Lemma ill_shaped_input_witness :
  generate_review_report (lib := sample_lib) (canned_reviewer "ok") ∅ []
  = (Raise (mk_exn Exception_
              ("Failed to generate review report: " +:+ missing_keys_text)), [])
  /\ (generate_review_report (lib := sample_lib) (canned_reviewer "ok")
        sample_input []).2
     = [sample_request (canned_reviewer "ok")].
Proof.
  split.
  - refine (eq_trans
              (proj1 (ill_shaped_input_raises_before_any_call (lib := sample_lib)
                        (canned_reviewer "ok") ∅ []) _) _).
    + intros [[v Hv] _]. vm_compute in Hv. discriminate Hv.
    + vm_compute. reflexivity.
  - apply (proj2 (ill_shaped_input_raises_before_any_call (lib := sample_lib)
                    (canned_reviewer "ok") sample_input [])
             (VStr "if flag == True: pass")
             "Variable 'u' is a bad name." ["This function is inefficient."]);
      vm_compute; reflexivity.
Defined.




Lemma api_failure_witness :
  generate_review_report (lib := sample_lib) (failing_reviewer "Connection error.")
    sample_input []
  = (Raise (mk_exn Exception_
              ("Failed to generate review report: Error generating review: "
               +:+ "Connection error.")),
     [sample_request (failing_reviewer "Connection error.")]).
Proof.
  apply (proj1 (proj2 (api_failure_is_wrapped_twice (lib := sample_lib)
                         (failing_reviewer "Connection error.") sample_input
                         (VStr "if flag == True: pass")
                         "Variable 'u' is a bad name." ["This function is inefficient."]
                         [] (mk_exn Exception_ "Connection error.")
                         ltac:(vm_compute; reflexivity)
                         ltac:(vm_compute; reflexivity)
                         ltac:(vm_compute; reflexivity)))).
Defined.

(** The bytes of U+1F4DD, the memo emoji, in UTF-8. *)
Definition memo_emoji : string := Str.of_bytes [240; 159; 147; 157]%N.

Definition plain_input : gmap string value :=
  {[ "code_snippet" := VStr "pass"; "review_comments" := VList [VStr "Fine."] ]}.

(** C10: on the input with the snippet "pass" and the one comment
    "Fine.", a run whose model answers "  All good.  " returns the
    header followed by the stripped content and nothing else; the
    header holds the bytes C3 B0 C5 B8 E2 80 9C between "# " and the
    title, so the report does not start with the header line that
    carries the memo emoji. *)
Theorem report_header_is_not_the_memo_header :
  (generate_review_report (lib := sample_lib) (canned_reviewer "  All good.  ")
     plain_input []).1
  = Return ("# " +:+ Str.of_bytes [195; 176; 197; 184; 226; 128; 156]%N
            +:+ " Empathetic Code Review Report" +:+ nl +:+ nl +:+ "All good.")
  /\ Str.startswith ("# " +:+ memo_emoji +:+ " Empathetic Code Review Report")
       ("# " +:+ Str.of_bytes [195; 176; 197; 184; 226; 128; 156]%N
        +:+ " Empathetic Code Review Report" +:+ nl +:+ nl +:+ "All good.")
     = false.
Proof. split; by vm_compute. Qed.


(** * Further properties of the reviewer *)

(** ** Every run of the report *)

Lemma assess_returns_only_for_strings (self : EmpathticCodeReviewer) (v : value)
    (severity : string) :
  _assess_comment_severity self v = Return severity -> exists s, v = VStr s.
Proof. destruct v; try discriminate. by exists s. Qed.

Lemma outcome_map_assess_strings (self : EmpathticCodeReviewer)
    (comments : list value) (severities : list string) :
  outcome_map (_assess_comment_severity self) comments = Return severities ->
  exists strings, comments = VStr <$> strings.
Proof.
  revert severities. induction comments as [|v comments IH]; intros severities H.
  - by exists [].
  - cbn [outcome_map] in H. unfold mbind, outcome_mbind in H.
    destruct (_assess_comment_severity self v) as [s|e] eqn:Hv; [|discriminate H].
    apply assess_returns_only_for_strings in Hv as [c ->].
    cbn [outcome_bind] in H.
    destruct (outcome_map (_assess_comment_severity self) comments) as [ss|e] eqn:Hm;
      [|discriminate H].
    destruct (IH ss eq_refl) as [strings ->]. by exists (c :: strings).
Qed.

Lemma well_shaped_or_not (input_data : gmap string value) :
  well_shaped input_data \/ ~ well_shaped input_data.
Proof.
  unfold well_shaped.
  destruct (input_data !! "code_snippet") as [snippet|];
    [|right; by intros [[? ?] _]].
  destruct (input_data !! "review_comments") as [[| | | | |[|v vs]|]|];
    try (right; intros [_ (c & cs & H)]; discriminate H).
  left. split; [by eexists|]. by exists v, vs.
Qed.

Section EveryRun.

Context `{lib : PyLib}.

Lemma enhance_returns_only_for_string_snippet
    (self : EmpathticCodeReviewer) (review_content : string) (code_snippet : value)
    (c : string) (cs : list string) (enhanced : string) :
  _enhance_with_resources self review_content code_snippet (VStr <$> (c :: cs))
  = Return enhanced ->
  exists snippet, code_snippet = VStr snippet.
Proof.
  intros H. destruct code_snippet as [| | | |s| |]; [| | | |by exists s| |];
    rewrite enhance_with_resources_bad_snippet in H by (intros s; discriminate);
    discriminate H.
Qed.

Lemma ill_shaped_input_rejected
    (self : EmpathticCodeReviewer) (input_data : gmap string value)
    (log : list request) :
  ~ well_shaped input_data ->
  exists text,
    generate_review_report self input_data log
    = (Raise (mk_exn Exception_ ("Failed to generate review report: " +:+ text)), log).
Proof.
  intros Hshape. unfold generate_review_report, try_except, has_key.
  destruct (input_data !! "code_snippet") as [snippet|] eqn:Hs.
  2:{ rewrite bool_decide_eq_false_2 by (by intros [? ?]). by eexists. }
  rewrite bool_decide_eq_true_2 by (by eexists).
  destruct (input_data !! "review_comments") as [comments|] eqn:Hc.
  2:{ rewrite bool_decide_eq_false_2 by (by intros [? ?]). by eexists. }
  rewrite bool_decide_eq_true_2 by (by eexists).
  cbn [negb orb]. unfold getitem. rewrite Hs, Hc.
  unfold mbind, M_bind, lift, raise, lift.
  destruct comments as [| | | | |[|c cs]|]; try by eexists.
  destruct Hshape. split; [by eexists|]. by exists c, cs.
Qed.

(** What a run of [generate_review_report] comes to, for any input dict:
    it raises without a request; or it makes its one request, the
    request fails and the failure is wrapped twice; or the request
    succeeds and the outcome is that of the resource step. *)
Inductive run_shape (self : EmpathticCodeReviewer) (input_data : gmap string value)
    (log : list request) : outcome string * list request -> Prop :=
| run_rejected (text : string) :
    run_shape self input_data log
      (Raise (mk_exn Exception_ ("Failed to generate review report: " +:+ text)), log)
| run_call_failed (code_snippet : value) (c : string) (cs : list string) (e : exn) :
    input_data !! "code_snippet" = Some code_snippet ->
    input_data !! "review_comments" = Some (VList (VStr <$> (c :: cs))) ->
    chat_completions_create (client self) log (review_request self code_snippet c cs)
    = Raise e ->
    run_shape self input_data log
      (Raise (mk_exn Exception_
                ("Failed to generate review report: "
                 +:+ "Error generating review: " +:+ exn_str e)),
       log ++ [review_request self code_snippet c cs])
| run_call_answered (code_snippet : value) (c : string) (cs : list string)
    (content : string) :
    input_data !! "code_snippet" = Some code_snippet ->
    input_data !! "review_comments" = Some (VList (VStr <$> (c :: cs))) ->
    chat_completions_create (client self) log (review_request self code_snippet c cs)
    = Return content ->
    run_shape self input_data log
      (match _enhance_with_resources self (Str.strip content) code_snippet
               (VStr <$> (c :: cs)) with
       | Return enhanced_review => Return (report_header +:+ enhanced_review)
       | Raise e =>
           Raise (mk_exn Exception_
                    ("Failed to generate review report: " +:+ exn_str e))
       end,
       log ++ [review_request self code_snippet c cs]).

Lemma generate_review_report_shape
    (self : EmpathticCodeReviewer) (input_data : gmap string value)
    (log : list request) :
  run_shape self input_data log (generate_review_report self input_data log).
Proof.
  destruct (well_shaped_or_not input_data) as [[[snippet Hs] (v & vs & Hc)]|Hill].
  - destruct (outcome_map (_assess_comment_severity self) (v :: vs))
      as [severities|e] eqn:Hsev.
    + destruct (outcome_map_assess_strings _ _ _ Hsev) as [[|c cs] Hstr];
        [discriminate Hstr|].
      rewrite Hstr in Hc.
      rewrite (generate_review_report_run _ _ _ _ _ _ Hs Hc).
      destruct (chat_completions_create (client self) log
                  (review_request self snippet c cs)) as [content|e] eqn:Hcall.
      * pose proof (run_call_answered self input_data log snippet c cs content
                      Hs Hc Hcall) as Hrun.
        exact Hrun.
      * by apply (run_call_failed self input_data log snippet c cs e).
    + unfold generate_review_report, try_except, has_key.
      rewrite Hs, Hc. rewrite !bool_decide_eq_true_2 by (by eexists).
      cbn [negb orb]. unfold getitem. rewrite Hs, Hc.
      unfold mbind at 1 2, M_bind, lift.
      unfold mbind at 1, M_bind, _generate_empathetic_review.
      unfold mbind at 1, M_bind, lift. rewrite Hsev.
      apply run_rejected.
  - destruct (ill_shaped_input_rejected self input_data log Hill) as [text ->].
    apply run_rejected.
Qed.

End EveryRun.

(** The text that [_enhance_with_resources] appends for the links it
    lists: nothing when there is none, else the head and one bullet per
    link. *)
Definition resources_section (listed : list string) : string :=
  match listed with
  | [] => EmptyString
  | _ :: _ => resource_section_head +:+ Str.join (bullet <$> listed)
  end.

Section RunProperties.

Context `{lib : PyLib}.

(** X1: a comment that is not a string, after any number of string
    comments, makes the report raise the wrapped attribute error of
    [lower] with the request log unchanged: the model is not called. *)
Theorem non_string_comment_stops_before_the_call
    (self : EmpathticCodeReviewer) (input_data : gmap string value)
    (code_snippet : value) (pre : list string) (v : value) (post : list value)
    (log : list request) :
  (forall s, v <> VStr s) ->
  input_data !! "code_snippet" = Some code_snippet ->
  input_data !! "review_comments" = Some (VList ((VStr <$> pre) ++ v :: post)) ->
  generate_review_report self input_data log
  = (Raise (mk_exn Exception_
              ("Failed to generate review report: '" +:+ type_name v
               +:+ "' object has no attribute 'lower'")),
     log).
Proof. apply non_string_comment_raises. Qed.


(** X3: whatever the input dict and whatever the client answers, a run
    of the report adds at most one request to the log. *)
Theorem report_makes_at_most_one_request
    (self : EmpathticCodeReviewer) (input_data : gmap string value)
    (log : list request) :
  exists sent,
    (generate_review_report self input_data log).2 = log ++ sent
    /\ (length sent <= 1)%nat.
Proof.
  destruct (generate_review_report_shape self input_data log).
  - exists []. split; [cbn [snd]; by rewrite app_nil_r | cbn; lia].
  - eexists [_]. split; [reflexivity | cbn; lia].
  - eexists [_]. split; [reflexivity | cbn; lia].
Qed.

(** X4: every exception that leaves [generate_review_report] is a
    generic [Exception] whose text starts with "Failed to generate
    review report: "; the [ValueError] of its own checks never leaves
    it. *)
Theorem report_raises_only_wrapped_exceptions
    (self : EmpathticCodeReviewer) (input_data : gmap string value)
    (log : list request) (e : exn) :
  (generate_review_report self input_data log).1 = Raise e ->
  exn_type e = Exception_
  /\ exists text, exn_str e = "Failed to generate review report: " +:+ text.
Proof.
  destruct (generate_review_report_shape self input_data log) as [text | |].
  - intros [= <-]. split; [done|]. by exists text.
  - intros [= <-]. split; [done|]. by eexists.
  - cbn [fst]. destruct (_enhance_with_resources _ _ _ _); [discriminate|].
    intros [= <-]. split; [done|]. by eexists.
Qed.

(** X5: a report is returned only when the snippet is a string, the
    comments are a non-empty list of strings and the model has answered
    the one request; the report is then the header, the stripped answer
    and the resource section, and nothing else. *)
Theorem report_returned_only_after_an_answer
    (self : EmpathticCodeReviewer) (input_data : gmap string value)
    (log : list request) (report : string) :
  (generate_review_report self input_data log).1 = Return report ->
  exists snippet c cs content listed,
    input_data !! "code_snippet" = Some (VStr snippet)
    /\ input_data !! "review_comments" = Some (VList (VStr <$> (c :: cs)))
    /\ chat_completions_create (client self) log
         (review_request self (VStr snippet) c cs) = Return content
    /\ (generate_review_report self input_data log).2
       = log ++ [review_request self (VStr snippet) c cs]
    /\ report = report_header +:+ Str.strip content +:+ resources_section listed.
Proof.
  destruct (generate_review_report_shape self input_data log)
    as [text | |code_snippet c cs content Hs Hc Hcall]; [discriminate..|].
  cbn [fst snd].
  destruct (_enhance_with_resources _ _ _ _) as [enhanced|e] eqn:Henh; [|discriminate].
  intros [= <-].
  destruct (enhance_returns_only_for_string_snippet _ _ _ _ _ _ Henh) as [snippet ->].
  rewrite enhance_with_resources_strings in Henh. injection Henh as <-.
  exists snippet, c, cs, content. eexists. repeat (split; [done|]).
  unfold resources_section. reflexivity.
Qed.

(** X6: only the values under the two keys matter: two input dicts that
    agree on ["code_snippet"] and ["review_comments"] give the same
    run, whatever else they hold. *)
Theorem report_ignores_other_keys
    (self : EmpathticCodeReviewer) (input1 input2 : gmap string value)
    (log : list request) :
  input1 !! "code_snippet" = input2 !! "code_snippet" ->
  input1 !! "review_comments" = input2 !! "review_comments" ->
  generate_review_report self input1 log = generate_review_report self input2 log.
Proof.
  intros Hs Hc. unfold generate_review_report, has_key, getitem.
  by rewrite Hs, Hc.
Qed.

End RunProperties.

(** ** The links *)

Definition all_links : list string :=
  [naming_link; performance_link; comprehension_link; recommendations_link;
   docstring_link].

Lemma all_links_NoDup : NoDup all_links.
Proof. apply (bool_decide_unpack _). by vm_compute. Qed.

Lemma links_of_sublist (comment snippet : string) :
  links_of resource_rules comment snippet `sublist_of` all_links.
Proof.
  unfold links_of. change all_links with (link <$> resource_rules).
  apply fmap_sublist, sublist_filter.
Qed.

(** The links that the comments of a list trigger, comment by comment. *)
Definition triggered (comments : list string) (snippet : string) : list string :=
  concat ((fun comment => links_of resource_rules comment snippet) <$> comments).

Lemma elem_of_triggered (comments : list string) (snippet x : string) :
  x ∈ triggered comments snippet
  <-> exists comment, comment ∈ comments /\ x ∈ links_of resource_rules comment snippet.
Proof.
  unfold triggered. induction comments as [|c comments IH].
  - cbn. rewrite elem_of_nil. split; [done|]. intros (? & H & _).
    by apply elem_of_nil in H.
  - cbn [fmap list_fmap concat]. fold (fmap (M := list)
      (fun comment => links_of resource_rules comment snippet) comments).
    rewrite elem_of_app, IH. split.
    + intros [H | (comment & Hc & H)].
      * exists c. split; [by left | done].
      * exists comment. split; [by right | done].
    + intros (comment & [-> | Hc]%elem_of_cons & H); [by left|].
      right. by exists comment.
Qed.

Lemma triggered_in_all_links (comments : list string) (snippet x : string) :
  x ∈ triggered comments snippet -> x ∈ all_links.
Proof.
  intros (comment & _ & H)%elem_of_triggered.
  by apply (elem_of_sublist _ _ _ H (links_of_sublist comment snippet)).
Qed.

Lemma enhance_with_resources_section
    (self : EmpathticCodeReviewer) (review_content snippet : string)
    (comments : list string) :
  _enhance_with_resources self review_content (VStr snippet) (VStr <$> comments)
  = Return (review_content
            +:+ resources_section (fromkeys (triggered comments snippet))).
Proof. apply enhance_with_resources_strings. Qed.

Lemma fromkeys_acc_all_seen (seen l : list string) :
  (forall x, x ∈ l -> x ∈ seen) -> fromkeys_acc seen l = reverse seen.
Proof.
  induction l as [|y l IH]; intros Hall; cbn [fromkeys_acc]; [done|].
  rewrite decide_True by (apply Hall; by left).
  apply IH. intros x Hx. apply Hall. by right.
Qed.

Lemma fromkeys_app_seen (l1 l2 : list string) :
  (forall x, x ∈ l2 -> x ∈ l1) -> fromkeys (l1 ++ l2) = fromkeys l1.
Proof.
  intros Hall. unfold fromkeys. rewrite fromkeys_acc_app, fromkeys_acc_all_seen.
  - apply reverse_involutive.
  - intros x Hx. rewrite elem_of_reverse, fromkeys_acc_elem_of. right. by apply Hall.
Qed.

(** X7: for a comment and a snippet that are strings,
    [_get_relevant_resources] returns the five fixed links with some
    of them left out: in the fixed order, none of them twice, so at
    most five. *)
Theorem relevant_resources_are_distinct
    (self : EmpathticCodeReviewer) (comment snippet : string) :
  exists links,
    _get_relevant_resources self (VStr comment) (VStr snippet) = Return links
    /\ links `sublist_of` all_links
    /\ NoDup links
    /\ (length links <= 5)%nat.
Proof.
  exists (links_of resource_rules comment snippet).
  pose proof (links_of_sublist comment snippet) as Hsub.
  split; [apply get_relevant_resources_links|]. split; [done|]. split.
  - apply (sublist_NoDup _ all_links); [apply all_links_NoDup | done].
  - apply (sublist_length _ _ Hsub).
Qed.

(** X8: however many comments there are, the resource section lists at
    most five links, each one of the five fixed links and none twice. *)
Theorem resource_section_lists_at_most_five_links
    (self : EmpathticCodeReviewer) (review_content snippet : string)
    (comments : list string) :
  exists listed,
    _enhance_with_resources self review_content (VStr snippet) (VStr <$> comments)
    = Return (review_content +:+ resources_section listed)
    /\ NoDup listed
    /\ (forall x, x ∈ listed -> x ∈ all_links)
    /\ (length listed <= 5)%nat.
Proof.
  exists (fromkeys (triggered comments snippet)).
  assert (Hin : forall x, x ∈ fromkeys (triggered comments snippet) -> x ∈ all_links).
  { intros x Hx. apply (triggered_in_all_links comments snippet x).
    by apply (proj1 (fromkeys_elem_of _ _)). }
  split; [apply enhance_with_resources_section|].
  split; [apply fromkeys_NoDup|]. split; [done|].
  apply (submseteq_length _ all_links), NoDup_submseteq; [apply fromkeys_NoDup | done].
Qed.

(** X9: the order of the comments decides the order of the listed links
    and nothing else: two lists that hold the same comments in another
    order list the same links, each list the links its comments
    trigger, every one of them once, in the order of their first
    occurrences. *)
Theorem reordering_comments_permutes_the_links
    (self : EmpathticCodeReviewer) (review_content snippet : string)
    (comments comments' : list string) :
  comments ≡ₚ comments' ->
  exists listed listed',
    _enhance_with_resources self review_content (VStr snippet) (VStr <$> comments)
    = Return (review_content +:+ resources_section listed)
    /\ _enhance_with_resources self review_content (VStr snippet) (VStr <$> comments')
       = Return (review_content +:+ resources_section listed')
    /\ NoDup listed /\ NoDup listed'
    /\ (forall x, x ∈ listed <-> x ∈ triggered comments snippet)
    /\ (forall x, x ∈ listed' <-> x ∈ triggered comments' snippet)
    /\ (forall x y, precedes x y listed
                    <-> first_occurs_before x y (triggered comments snippet))
    /\ (forall x y, precedes x y listed'
                    <-> first_occurs_before x y (triggered comments' snippet))
    /\ listed ≡ₚ listed'.
Proof.
  intros Hperm.
  exists (fromkeys (triggered comments snippet)), (fromkeys (triggered comments' snippet)).
  split; [apply enhance_with_resources_section|].
  split; [apply enhance_with_resources_section|].
  split; [apply fromkeys_NoDup|]. split; [apply fromkeys_NoDup|].
  split; [intros x; apply fromkeys_elem_of|].
  split; [intros x; apply fromkeys_elem_of|].
  split; [intros x y; apply fromkeys_order|].
  split; [intros x y; apply fromkeys_order|].
  apply NoDup_Permutation; [apply fromkeys_NoDup..|].
  intros x. rewrite !fromkeys_elem_of, !elem_of_triggered.
  split; intros (comment & Hc & Hx); exists comment; split; try done.
  - by rewrite <- Hperm.
  - by rewrite Hperm.
Qed.

(** X10: comments that repeat earlier comments add nothing: appending
    to the list comments that already occur in it leaves the enhanced
    review as it is. *)
Theorem repeated_comments_change_nothing
    (self : EmpathticCodeReviewer) (review_content snippet : string)
    (comments repeated : list string) :
  (forall comment, comment ∈ repeated -> comment ∈ comments) ->
  _enhance_with_resources self review_content (VStr snippet)
    (VStr <$> (comments ++ repeated))
  = _enhance_with_resources self review_content (VStr snippet) (VStr <$> comments).
Proof.
  intros Hrep. rewrite !enhance_with_resources_section. do 3 f_equal.
  unfold triggered at 1. rewrite fmap_app, concat_app.
  apply fromkeys_app_seen. intros x (comment & Hc & Hx)%elem_of_triggered.
  apply elem_of_triggered. exists comment. split; [by apply Hrep | done].
Qed.

(** X11: [_enhance_with_resources] returns the review unchanged exactly
    when no rule fires on any comment; as soon as one rule fires on one
    comment the section is appended. *)
Theorem section_appended_iff_a_rule_fires
    (self : EmpathticCodeReviewer) (review_content snippet : string)
    (comments : list string) :
  _enhance_with_resources self review_content (VStr snippet) (VStr <$> comments)
  = Return review_content
  <-> forall comment r,
        comment ∈ comments -> r ∈ resource_rules -> ~ fires comment snippet r.
Proof. apply enhance_unchanged_iff_no_rule_fires. Qed.

(** ** Counting a link in a text *)

(** The number of places at which [needle] occurs in [hay]. *)
Fixpoint occurrences (needle hay : string) : nat :=
  ((if Str.startswith needle hay then 1 else 0)
   + match hay with
     | EmptyString => 0
     | String _ hay' => occurrences needle hay'
     end)%nat.

Fixpoint has_char (c : ascii) (s : string) : bool :=
  match s with
  | EmptyString => false
  | String x s' => Ascii.eqb x c || has_char c s'
  end.

Lemma startswith_before_separator (needle a b : string) (c : ascii) :
  has_char c needle = false ->
  Str.startswith needle (a +:+ String c b) = Str.startswith needle a.
Proof.
  revert a. induction needle as [|n needle IH]; intros a Hc; [done|].
  cbn [has_char] in Hc. apply orb_false_iff in Hc as [Hn Hc].
  destruct a as [|x a].
  - change (EmptyString +:+ String c b) with (String c b).
    cbn [Str.startswith]. by rewrite Hn.
  - change (String x a +:+ String c b) with (String x (a +:+ String c b)).
    cbn [Str.startswith]. by rewrite IH.
Qed.

(** A needle that does not hold the separator occurs on one side of it
    or on the other. *)
Lemma occurrences_around_separator (needle a b : string) (c : ascii) :
  needle <> EmptyString -> has_char c needle = false ->
  occurrences needle (a +:+ String c b)
  = (occurrences needle a + occurrences needle b)%nat.
Proof.
  intros Hne Hc. induction a as [|x a IH].
  - change (EmptyString +:+ String c b) with (String c b).
    cbn [occurrences].
    rewrite <- (startswith_before_separator needle EmptyString b c Hc).
    change (EmptyString +:+ String c b) with (String c b).
    destruct needle as [|n needle]; [done|]. cbn [Str.startswith].
    destruct (Str.startswith (String n needle) (String c b)); lia.
  - change (String x a +:+ String c b) with (String x (a +:+ String c b)).
    cbn [occurrences]. rewrite IH.
    change (String x (a +:+ String c b)) with (String x a +:+ String c b).
    rewrite startswith_before_separator by done. lia.
Qed.

(** Lines, each closed by a newline. *)
Definition with_newlines (lines : list string) : string :=
  Str.join ((fun line => line +:+ nl) <$> lines).

Lemma occurrences_with_newlines (needle : string) (lines : list string) :
  needle <> EmptyString -> has_char (ascii_of_N 10) needle = false ->
  occurrences needle (with_newlines lines)
  = sum_list (occurrences needle <$> lines).
Proof.
  intros Hne Hnl. induction lines as [|line lines IH].
  - destruct needle; [done | reflexivity].
  - unfold with_newlines. cbn [fmap list_fmap Str.join foldr sum_list sum_list_with].
    fold (fmap (M := list) (fun line => line +:+ nl) lines).
    fold (Str.join ((fun line => line +:+ nl) <$> lines)).
    fold (with_newlines lines). fold (fmap (M := list) (occurrences needle) lines).
    rewrite append_assoc.
    change (nl +:+ with_newlines lines)
      with (String (ascii_of_N 10) (with_newlines lines)).
    rewrite occurrences_around_separator, IH by done. reflexivity.
Qed.

Definition section_head_lines : list string :=
  [""; ""; "## Additional Resources"; "";
   "For further learning, consider reviewing these resources:"; ""].

Lemma join_app (l1 l2 : list string) :
  Str.join (l1 ++ l2) = Str.join l1 +:+ Str.join l2.
Proof.
  induction l1 as [|x l1 IH]; [done|].
  cbn [app Str.join foldr]. fold (Str.join (l1 ++ l2)). fold (Str.join l1).
  by rewrite IH, append_assoc.
Qed.

Lemma resources_section_lines (r : string) (rs : list string) :
  resources_section (r :: rs)
  = with_newlines (section_head_lines ++ ((fun x => "- " +:+ x) <$> (r :: rs))).
Proof.
  unfold resources_section, with_newlines. rewrite fmap_app, join_app. f_equal.
  generalize (r :: rs). intros l. induction l as [|x l IH]; [done|].
  cbn [fmap list_fmap Str.join foldr].
  fold (fmap (M := list) bullet l). fold (fmap (M := list) (fun x => "- " +:+ x) l).
  fold (fmap (M := list) (fun line => line +:+ nl) ((fun x => "- " +:+ x) <$> l)).
  fold (Str.join (bullet <$> l)).
  fold (Str.join ((fun line => line +:+ nl) <$> ((fun x => "- " +:+ x) <$> l))).
  rewrite IH. unfold bullet. by rewrite !append_assoc.
Qed.

Lemma recommendations_link_in_a_bullet (x : string) :
  x ∈ all_links ->
  occurrences recommendations_link ("- " +:+ x)
  = if decide (x = recommendations_link) then 1%nat else 0%nat.
Proof.
  unfold all_links. intros H.
  repeat (apply elem_of_cons in H as [->|H]; [by vm_compute|]).
  by apply elem_of_nil in H.
Qed.

Lemma sum_of_marks (f : string -> nat) (mark : string) (l : list string) :
  (forall x, x ∈ l -> f x = if decide (x = mark) then 1%nat else 0%nat) ->
  sum_list (f <$> l) = length (filter (fun y => y = mark) l).
Proof.
  induction l as [|x l IH]; intros Hf; [done|].
  cbn [fmap list_fmap sum_list sum_list_with]. fold (fmap (M := list) f l).
  rewrite (Hf x) by (by left). rewrite filter_cons.
  rewrite IH by (intros y Hy; apply Hf; by right).
  by destruct (decide (x = mark)).
Qed.

(** In a section that lists distinct links out of the five, with the
    programming-recommendations link among them, the text of that link
    occurs once. *)
Lemma recommendations_link_once_in_section (listed : list string) :
  NoDup listed -> (forall x, x ∈ listed -> x ∈ all_links) ->
  recommendations_link ∈ listed ->
  occurrences recommendations_link (resources_section listed) = 1%nat.
Proof.
  intros Hnd Hall Hin. destruct listed as [|r rs]; [by apply elem_of_nil in Hin|].
  rewrite resources_section_lines, occurrences_with_newlines by done.
  rewrite fmap_app, sum_list_with_app, <- list_fmap_compose.
  assert (Hhead : sum_list (occurrences recommendations_link <$> section_head_lines)
                  = 0%nat) by (by vm_compute).
  rewrite Hhead, (sum_of_marks _ recommendations_link).
  - by rewrite (NoDup_count_one _ _ Hnd Hin).
  - intros x Hx. by apply recommendations_link_in_a_bullet, Hall.
Qed.

(** The link in a report: as often as in the stripped answer and in
    the section together. *)
Lemma recommendations_link_in_report (answer : string) (r : string) (rs : list string) :
  occurrences recommendations_link
    (report_header +:+ answer +:+ resources_section (r :: rs))
  = (occurrences recommendations_link answer
     + occurrences recommendations_link (resources_section (r :: rs)))%nat.
Proof.
  set (section := resources_section (r :: rs)).
  assert (Hsec : exists tail, section = String (ascii_of_N 10) tail).
  { unfold section, resources_section, resource_section_head. by eexists. }
  destruct Hsec as [tail ->].
  change report_header
    with (("# " +:+ report_mark +:+ " Empathetic Code Review Report")
          +:+ String (ascii_of_N 10) (String (ascii_of_N 10) EmptyString)).
  rewrite append_assoc.
  change (String (ascii_of_N 10) (String (ascii_of_N 10) EmptyString)
          +:+ answer +:+ String (ascii_of_N 10) tail)
    with (String (ascii_of_N 10)
            (EmptyString +:+ String (ascii_of_N 10)
                               (answer +:+ String (ascii_of_N 10) tail))).
  rewrite !occurrences_around_separator by done.
  rewrite <- (append_empty_r (String (ascii_of_N 10) tail)) at 1.
  change (String (ascii_of_N 10) tail +:+ EmptyString)
    with (EmptyString +:+ String (ascii_of_N 10) (tail +:+ EmptyString)).
  rewrite occurrences_around_separator, append_empty_r by done.
  change (occurrences recommendations_link
            ("# " +:+ report_mark +:+ " Empathetic Code Review Report"))
    with 0%nat.
  change (occurrences recommendations_link EmptyString) with 0%nat. lia.
Qed.

Section RecommendationsLink.

Context `{lib : PyLib}.

(** C9, amended: when "== true" or "== false" occurs in the lowercased
    snippet, every comment, whatever it says, yields the
    programming-recommendations link, and the resource section that the
    report on a non-empty list of comments ends in holds that link
    exactly once.  The report as a whole holds it once more than the
    stripped answer of the model does. *)
Theorem recommendations_link_once_in_the_section
    (self : EmpathticCodeReviewer) (input_data : gmap string value)
    (snippet : string) (c : string) (cs : list string)
    (log : list request) (content : string) :
  occurs "== true" (Str.lower snippet) \/ occurs "== false" (Str.lower snippet) ->
  input_data !! "code_snippet" = Some (VStr snippet) ->
  input_data !! "review_comments" = Some (VList (VStr <$> (c :: cs))) ->
  chat_completions_create (client self) log (review_request self (VStr snippet) c cs)
  = Return content ->
  let listed := fromkeys (triggered (c :: cs) snippet) in
  let section := resources_section listed in
  let report := report_header +:+ Str.strip content +:+ section in
  (forall comment, exists links,
      _get_relevant_resources self (VStr comment) (VStr snippet) = Return links
      /\ recommendations_link ∈ links)
  /\ (generate_review_report self input_data log).1 = Return report
  /\ NoDup listed
  /\ (forall x, x ∈ listed <-> x ∈ triggered (c :: cs) snippet)
  /\ length (filter (fun r => r = recommendations_link) listed) = 1%nat
  /\ occurrences recommendations_link section = 1%nat
  /\ occurrences recommendations_link report
     = (occurrences recommendations_link (Str.strip content) + 1)%nat.
Proof.
  intros Hocc Hs Hc Hcontent listed section report.
  assert (Hevery : forall comment,
             recommendations_link ∈ links_of resource_rules comment snippet).
  { intros comment. unfold links_of. apply list_elem_of_fmap.
    exists recommendations_rule. split; [done|].
    apply list_elem_of_filter. split.
    - unfold fires. cbn [keywords recommendations_rule].
      rewrite Exists_cons, Exists_cons. tauto.
    - unfold resource_rules. repeat constructor. }
  assert (Hin : recommendations_link ∈ listed).
  { apply fromkeys_elem_of, elem_of_triggered. exists c. split; [by left | done]. }
  assert (Hnd : NoDup listed) by apply fromkeys_NoDup.
  assert (Hall : forall x, x ∈ listed -> x ∈ all_links).
  { intros x Hx. apply (triggered_in_all_links (c :: cs) snippet x).
    by apply (proj1 (fromkeys_elem_of _ _)). }
  assert (Hsection : occurrences recommendations_link section = 1%nat)
    by by apply recommendations_link_once_in_section.
  split; [|split; [|split; [|split; [|split; [|split]]]]].
  - intros comment. eexists. split; [apply get_relevant_resources_links | done].
  - by rewrite (generate_review_report_success _ _ _ _ _ _ _ Hs Hc Hcontent).
  - done.
  - intros x. apply fromkeys_elem_of.
  - by apply NoDup_count_one.
  - done.
  - unfold report. fold section in Hsection. revert Hsection. unfold section.
    destruct listed as [|r rs]; [by apply elem_of_nil in Hin|]. intros Hsection.
    by rewrite recommendations_link_in_report, Hsection.
Qed.

End RecommendationsLink.

Definition quoting_reviewer : EmpathticCodeReviewer :=
  canned_reviewer ("See " +:+ recommendations_link +:+ ".").

Definition quoting_report : string :=
  report_header +:+ "See " +:+ recommendations_link +:+ "." +:+ resource_section_head
  +:+ bullet naming_link +:+ bullet recommendations_link
  +:+ bullet performance_link +:+ bullet docstring_link.

(** C9, as stated, fails: on the sample input, whose snippet holds
    "== True", a model that quotes the link in its answer gives a
    report that holds the link twice, once in the answer and once in
    the resource section. *)
Lemma quoted_link_is_in_the_report_twice :
  Str.contains "== true" (Str.lower "if flag == True: pass") = true
  /\ (generate_review_report (lib := sample_lib) quoting_reviewer sample_input []).1
     = Return quoting_report
  /\ occurrences recommendations_link quoting_report = 2%nat.
Proof. repeat split; by vm_compute. Qed.

Lemma recommendations_link_witness :
  (generate_review_report (lib := sample_lib) (canned_reviewer "ok") sample_input []).1
  = Return (report_header +:+ Str.strip "ok"
            +:+ resources_section
                  (fromkeys (triggered ["Variable 'u' is a bad name.";
                                        "This function is inefficient."]
                               "if flag == True: pass")))
  /\ occurrences recommendations_link
       (resources_section
          (fromkeys (triggered ["Variable 'u' is a bad name.";
                                "This function is inefficient."]
                       "if flag == True: pass")))
     = 1%nat.
Proof.
  pose proof (recommendations_link_once_in_the_section (lib := sample_lib)
                (canned_reviewer "ok") sample_input "if flag == True: pass"
                "Variable 'u' is a bad name." ["This function is inefficient."]
                [] "ok"
                ltac:(left; apply contains_spec; vm_compute; reflexivity)
                ltac:(vm_compute; reflexivity)
                ltac:(vm_compute; reflexivity)
                ltac:(vm_compute; reflexivity)) as (_ & Hreport & _ & _ & _ & Hsec & _).
  split; [exact Hreport | exact Hsec].
Defined.

(** ** Letter case, labels and prompts *)

Lemma lower_char_idempotent (c : ascii) :
  Str.lower_char (Str.lower_char c) = Str.lower_char c.
Proof. destruct c as [[] [] [] [] [] [] [] []]; reflexivity. Qed.

Lemma lower_idempotent (s : string) : Str.lower (Str.lower s) = Str.lower s.
Proof.
  induction s as [|c s IH]; [done|].
  cbn [Str.lower]. by rewrite lower_char_idempotent, IH.
Qed.

Lemma hits_elem_of (indicators : list string) (comment x : string) :
  x ∈ indicator_hits indicators comment
  <-> occurs x (Str.lower comment) /\ x ∈ indicators.
Proof. unfold indicator_hits. by rewrite elem_of_filter, elem_of_list_to_set. Qed.

Lemma hits_positive (indicators : list string) (comment : string) :
  (0 < size (indicator_hits indicators comment))%nat ->
  exists i, i ∈ indicators /\ occurs i (Str.lower comment).
Proof.
  intros [i Hi]%size_pos_elem_of. apply hits_elem_of in Hi as [Ho Hi]. by exists i.
Qed.

Lemma hits_none (indicators : list string) (comment : string) :
  (forall i, i ∈ indicators -> ~ occurs i (Str.lower comment)) ->
  size (indicator_hits indicators comment) = 0%nat.
Proof.
  intros Hnone. apply size_empty_iff. intros i. split; [|by intros ?%elem_of_empty].
  intros [Ho Hi]%hits_elem_of. by destruct (Hnone i Hi).
Qed.

Lemma occurs_unlines (x : string) (l : list string) : x ∈ l -> occurs x (unlines l).
Proof.
  induction l as [|y l IH]; [by intros ?%elem_of_nil|].
  intros [->|Hx]%elem_of_cons.
  - destruct l as [|z l].
    + exists EmptyString, EmptyString. cbn. by rewrite append_empty_r.
    + exists EmptyString, (nl +:+ unlines (z :: l)). reflexivity.
  - destruct l as [|z l]; [by apply elem_of_nil in Hx|].
    destruct (IH Hx) as (pre & post & Heq).
    exists (y +:+ nl +:+ pre), post.
    change (unlines (y :: z :: l)) with (y +:+ nl +:+ unlines (z :: l)).
    by rewrite Heq, !append_assoc.
Qed.

(** X12: letter case does not matter: two comments that are equal once
    lowercased get the same severity, and with two snippets that are
    equal once lowercased the same links; in particular a comment and
    its lowercased form do. *)
Theorem severity_and_links_ignore_case
    (self : EmpathticCodeReviewer) (comment comment' snippet snippet' : string) :
  Str.lower comment = Str.lower comment' ->
  Str.lower snippet = Str.lower snippet' ->
  _assess_comment_severity self (VStr comment)
  = _assess_comment_severity self (VStr comment')
  /\ _get_relevant_resources self (VStr comment) (VStr snippet)
     = _get_relevant_resources self (VStr comment') (VStr snippet')
  /\ _assess_comment_severity self (VStr (Str.lower comment))
     = _assess_comment_severity self (VStr comment)
  /\ _get_relevant_resources self (VStr (Str.lower comment)) (VStr (Str.lower snippet))
     = _get_relevant_resources self (VStr comment) (VStr snippet).
Proof.
  intros Hc Hs. unfold _assess_comment_severity, _get_relevant_resources.
  cbn [py_lower mbind outcome_mbind outcome_bind].
  by rewrite !lower_idempotent, Hc, Hs.
Qed.

(** X13: [_create_system_prompt] returns the bare base prompt exactly
    for a severity that is none of "harsh", "moderate" and "neutral":
    an unknown label gets no adjustment and raises nothing, and each of
    the three labels adds text. *)
Theorem system_prompt_is_bare_iff_label_unknown
    (self : EmpathticCodeReviewer) (severity : string) :
  _create_system_prompt self severity = base_prompt
  <-> severity ∉ ["harsh"; "moderate"; "neutral"].
Proof.
  unfold _create_system_prompt. rewrite !not_elem_of_cons. split.
  - intros H%append_eq_self. cbn [dict_get severity_adjustments] in H.
    repeat split; try apply not_elem_of_nil; intros ->; discriminate H.
  - intros (Hh & Hm & Hn & _). cbn [dict_get severity_adjustments].
    rewrite !(proj2 (String.eqb_neq _ _)) by done. apply append_empty_r.
Qed.

(** X15: a label other than "moderate" has a cause: "harsh" is
    returned only when a harsh indicator occurs in the lowercased
    comment, "neutral" only when a neutral one does; a comment in which
    no indicator occurs is "moderate". *)
Theorem severity_label_has_a_cause
    (self : EmpathticCodeReviewer) (comment : string) :
  (_assess_comment_severity self (VStr comment) = Return "harsh" ->
   exists i, i ∈ harsh_indicators /\ occurs i (Str.lower comment))
  /\ (_assess_comment_severity self (VStr comment) = Return "neutral" ->
      exists i, i ∈ neutral_indicators /\ occurs i (Str.lower comment))
  /\ ((forall i, i ∈ harsh_indicators ++ neutral_indicators ->
                 ~ occurs i (Str.lower comment)) ->
      _assess_comment_severity self (VStr comment) = Return "moderate").
Proof.
  rewrite assess_comment_severity_label. unfold label_by_counts.
  split; [|split].
  - case_decide; [intros _; apply hits_positive; lia|].
    case_decide; discriminate.
  - case_decide; [discriminate|].
    case_decide; [intros _; apply hits_positive; lia | discriminate].
  - intros Hnone.
    rewrite (hits_none harsh_indicators), (hits_none neutral_indicators).
    + reflexivity.
    + intros i Hi. apply Hnone. rewrite elem_of_app. by right.
    + intros i Hi. apply Hnone. rewrite elem_of_app. by left.
Qed.

Section PromptProperties.

Context `{lib : PyLib}.

(** X14: on an empty list of comments [_generate_empathetic_review]
    raises the [ValueError] of [max], outside its own handler and
    before any request, and [_enhance_with_resources] returns the
    review unchanged whatever the snippet is, even one that is not a
    string. *)
Theorem empty_comment_list
    (self : EmpathticCodeReviewer) (code_snippet : value) (review_content : string)
    (log : list request) :
  (exists text,
     _generate_empathetic_review self code_snippet [] log
     = (Raise (mk_exn ValueError text), log))
  /\ _enhance_with_resources self review_content code_snippet []
     = Return review_content.
Proof. split; [by eexists | reflexivity]. Qed.

(** X16: the request of a review carries the input: its user prompt
    contains the text of the snippet and the JSON encoding of the list
    of comments, and its system prompt starts with the base prompt. *)
Theorem request_carries_snippet_and_comments
    (self : EmpathticCodeReviewer) (snippet : string)
    (c : string) (cs : list string) (log : list request) :
  exists sent,
    (_generate_empathetic_review self (VStr snippet) (VStr <$> (c :: cs)) log).2
    = log ++ [sent]
    /\ occurs snippet (user_content sent)
    /\ occurs (json_dumps_indent2 (VStr <$> (c :: cs))) (user_content sent)
    /\ exists adjustment, system_content sent = base_prompt +:+ adjustment.
Proof.
  exists (review_request self (VStr snippet) c cs).
  split; [by rewrite generate_empathetic_review_run|].
  cbn [user_content system_content review_request]. unfold user_prompt.
  split; [|split].
  - apply occurs_unlines. rewrite format_str. set_solver.
  - apply occurs_unlines. set_solver.
  - by eexists.
Qed.

End PromptProperties.

(** ** The further properties at concrete inputs *)

Definition mixed_input : gmap string value :=
  {[ "code_snippet" := VStr "pass";
     "review_comments" := VList [VStr "ok"; VInt 3] ]}.


Definition sample_report : string :=
  report_header +:+ "All good." +:+ resource_section_head
  +:+ bullet naming_link +:+ bullet recommendations_link
  +:+ bullet performance_link +:+ bullet docstring_link.

Lemma non_string_comment_witness :
  generate_review_report (lib := sample_lib) (canned_reviewer "fine") mixed_input []
  = (Raise (mk_exn Exception_
              ("Failed to generate review report: '" +:+ type_name (VInt 3)
               +:+ "' object has no attribute 'lower'")),
     []).
Proof.
  apply (non_string_comment_stops_before_the_call (lib := sample_lib)
           (canned_reviewer "fine") mixed_input (VStr "pass") ["ok"] (VInt 3) [] []).
  - intros s. discriminate.
  - vm_compute. reflexivity.
  - vm_compute. reflexivity.
Defined.


Lemma wrapped_exception_witness :
  exn_type (mk_exn Exception_
              ("Failed to generate review report: " +:+ missing_keys_text))
  = Exception_
  /\ exists text,
       exn_str (mk_exn Exception_
                  ("Failed to generate review report: " +:+ missing_keys_text))
       = "Failed to generate review report: " +:+ text.
Proof.
  apply (report_raises_only_wrapped_exceptions (lib := sample_lib)
           (canned_reviewer "fine") ∅ []).
  vm_compute. reflexivity.
Defined.

Lemma report_returned_witness :
  exists snippet c cs content listed,
    sample_input !! "code_snippet" = Some (VStr snippet)
    /\ sample_input !! "review_comments" = Some (VList (VStr <$> (c :: cs)))
    /\ chat_completions_create (client (canned_reviewer "  All good.  ")) []
         (review_request (lib := sample_lib) (canned_reviewer "  All good.  ")
            (VStr snippet) c cs)
       = Return content
    /\ (generate_review_report (lib := sample_lib) (canned_reviewer "  All good.  ")
          sample_input []).2
       = [] ++ [review_request (lib := sample_lib) (canned_reviewer "  All good.  ")
                  (VStr snippet) c cs]
    /\ sample_report
       = report_header +:+ Str.strip content +:+ resources_section listed.
Proof.
  apply (report_returned_only_after_an_answer (lib := sample_lib)
           (canned_reviewer "  All good.  ") sample_input [] sample_report).
  vm_compute. reflexivity.
Defined.

Lemma other_keys_witness :
  generate_review_report (lib := sample_lib) (canned_reviewer "fine")
    (<["language" := VStr "python"]> sample_input) []
  = generate_review_report (lib := sample_lib) (canned_reviewer "fine") sample_input [].
Proof.
  apply (report_ignores_other_keys (lib := sample_lib)); vm_compute; reflexivity.
Defined.

Lemma reordering_witness :
  exists listed listed',
    _enhance_with_resources (canned_reviewer "fine") "Review." (VStr "pass")
      (VStr <$> ["a function"; "a loop"])
    = Return ("Review." +:+ resources_section listed)
    /\ _enhance_with_resources (canned_reviewer "fine") "Review." (VStr "pass")
         (VStr <$> ["a loop"; "a function"])
       = Return ("Review." +:+ resources_section listed')
    /\ NoDup listed /\ NoDup listed'
    /\ (forall x, x ∈ listed <-> x ∈ triggered ["a function"; "a loop"] "pass")
    /\ (forall x, x ∈ listed' <-> x ∈ triggered ["a loop"; "a function"] "pass")
    /\ (forall x y, precedes x y listed
                    <-> first_occurs_before x y (triggered ["a function"; "a loop"] "pass"))
    /\ (forall x y, precedes x y listed'
                    <-> first_occurs_before x y (triggered ["a loop"; "a function"] "pass"))
    /\ listed ≡ₚ listed'.
Proof.
  apply (reordering_comments_permutes_the_links (canned_reviewer "fine")
           "Review." "pass" ["a function"; "a loop"] ["a loop"; "a function"]).
  apply perm_swap.
Defined.

Lemma repeated_comments_witness :
  _enhance_with_resources (canned_reviewer "fine") "Review." (VStr "pass")
    (VStr <$> (["a loop"; "a function"] ++ ["a function"; "a loop"]))
  = _enhance_with_resources (canned_reviewer "fine") "Review." (VStr "pass")
      (VStr <$> ["a loop"; "a function"]).
Proof.
  apply (repeated_comments_change_nothing (canned_reviewer "fine") "Review." "pass"
           ["a loop"; "a function"] ["a function"; "a loop"]).
  intros comment H. apply elem_of_cons in H as [->|H]; [right; left|].
  apply elem_of_cons in H as [->|H]; [left|]. by apply elem_of_nil in H.
Defined.

Lemma ignore_case_witness :
  _assess_comment_severity (canned_reviewer "fine") (VStr "A BAD Name")
  = _assess_comment_severity (canned_reviewer "fine") (VStr "a bad NAME")
  /\ _get_relevant_resources (canned_reviewer "fine") (VStr "A BAD Name")
       (VStr "if X == TRUE")
     = _get_relevant_resources (canned_reviewer "fine") (VStr "a bad NAME")
         (VStr "if x == True").
Proof.
  pose proof (severity_and_links_ignore_case (canned_reviewer "fine")
                "A BAD Name" "a bad NAME" "if X == TRUE" "if x == True"
                eq_refl eq_refl) as (H1 & H2 & _).
  split; [exact H1 | exact H2].
Defined.

Lemma label_cause_witness :
  exists i, i ∈ harsh_indicators /\ occurs i (Str.lower "This code is TERRIBLE.").
Proof.
  apply (proj1 (severity_label_has_a_cause (canned_reviewer "fine")
                  "This code is TERRIBLE.")).
  vm_compute. reflexivity.
Defined.

(** ** Ties, and parsing before reporting *)

Section Composition.

Context `{lib : PyLib}.

(** X17: when no label occurs more often than the label of the first
    comment, the first comment decides: the system prompt sent is the
    one for its label.  So a single comment sets the tone, and among
    labels that are tied the earliest comment wins. *)
Theorem first_comment_wins_ties
    (self : EmpathticCodeReviewer) (code_snippet : value)
    (c : string) (cs : list string) (log : list request)
    (first : string) (severities : list string) :
  outcome_map (_assess_comment_severity self) (VStr <$> (c :: cs))
  = Return (first :: severities) ->
  (forall s, s ∈ severities ->
             py_count (first :: severities) s <= py_count (first :: severities) first) ->
  exists sent,
    (_generate_empathetic_review self code_snippet (VStr <$> (c :: cs)) log).2
    = log ++ [sent]
    /\ system_content sent = _create_system_prompt self first.
Proof.
  intros Hsev Hmost.
  rewrite (outcome_map_strings _ label_by_counts) in Hsev
    by apply assess_comment_severity_label.
  cbn [fmap list_fmap] in Hsev. fold (fmap (M := list) label_by_counts cs) in Hsev.
  assert (Hf : label_by_counts c = first) by congruence.
  assert (Hs : label_by_counts <$> cs = severities) by congruence.
  clear Hsev.
  exists (review_request self code_snippet c cs).
  split; [by rewrite generate_empathetic_review_run|].
  cbn [system_content review_request]. f_equal. unfold overall_label.
  destruct (max_from_first_maximal
              (py_count (label_by_counts <$> (c :: cs)))
              (label_by_counts c) (label_by_counts <$> cs))
    as (before & after & Hsplit & Hbefore & _).
  set (m := max_from _ _ _) in *.
  assert (Hall : label_by_counts <$> (c :: cs) = first :: severities).
  { cbn [fmap list_fmap]. fold (fmap (M := list) label_by_counts cs). congruence. }
  rewrite Hall in Hbefore. rewrite Hf, Hs in Hsplit.
  destruct before as [|p before]; cbn [app] in Hsplit; [congruence|].
  exfalso.
  assert (Hp : p = first) by congruence.
  assert (Hrest : severities = before ++ m :: after) by congruence.
  assert (Hm : m ∈ severities).
  { rewrite Hrest, elem_of_app, elem_of_cons. auto. }
  pose proof (Hmost m Hm) as Hle.
  assert (Hlt : py_count (first :: severities) first < py_count (first :: severities) m).
  { apply Hbefore. rewrite Hp. by left. }
  lia.
Qed.

(** X18: what [parse_json_input] accepts the report may still reject: a
    text that decodes to a dict without one of the keys, or with
    ["review_comments"] not a non-empty list, is returned by the parser
    as it is, and the report on it raises the wrapped exception without
    calling the model; a text the decoder rejects never reaches the
    report, the parser raising [ValueError]. *)
Theorem parsed_input_can_still_be_rejected
    (self : EmpathticCodeReviewer) (json_string : string) (log : list request) :
  (forall d, json_loads json_string = Document (VDict d) ->
             ~ well_shaped d ->
             parse_json_input json_string = Return (VDict d)
             /\ exists text,
                  generate_review_report self d log
                  = (Raise (mk_exn Exception_
                              ("Failed to generate review report: " +:+ text)),
                     log))
  /\ (forall text, json_loads json_string = DecodeError text ->
                   exists e, parse_json_input json_string = Raise e
                             /\ exn_type e = ValueError).
Proof.
  unfold parse_json_input. split.
  - intros d -> Hshape. split; [done|]. by apply ill_shaped_input_rejected.
  - intros text ->. by eexists.
Qed.

End Composition.

Lemma first_comment_witness :
  exists sent,
    (_generate_empathetic_review (lib := sample_lib) (canned_reviewer "fine")
       (VStr "pass") (VStr <$> ["This is bad."; "You could improve it."]) []).2
    = [] ++ [sent]
    /\ system_content sent = _create_system_prompt (canned_reviewer "fine") "harsh".
Proof.
  apply (first_comment_wins_ties (lib := sample_lib) (canned_reviewer "fine")
           (VStr "pass") "This is bad." ["You could improve it."] []
           "harsh" ["neutral"]).
  - vm_compute. reflexivity.
  - intros s Hin. apply elem_of_cons in Hin as [->|Hin].
    + vm_compute. discriminate.
    + by apply elem_of_nil in Hin.
Defined.

Definition keyless_text : string := "{}".

Definition keyless_lib : PyLib := {|
  format_value := plain_format;
  format_str := fun s => eq_refl;
  json_dumps_indent2 := json_dumps_indent2 (PyLib := sample_lib);
  json_loads := fun s =>
    if String.eqb s keyless_text then Document (VDict ∅)
    else json_loads (PyLib := sample_lib) s
|}.

Lemma parsed_then_rejected_witness :
  parse_json_input (lib := keyless_lib) keyless_text = Return (VDict ∅)
  /\ exists text,
       generate_review_report (lib := keyless_lib) (canned_reviewer "fine") ∅ []
       = (Raise (mk_exn Exception_
                   ("Failed to generate review report: " +:+ text)), []).
Proof.
  apply (proj1 (parsed_input_can_still_be_rejected (lib := keyless_lib)
                  (canned_reviewer "fine") keyless_text []) ∅).
  - vm_compute. reflexivity.
  - intros [[v Hv] _]. vm_compute in Hv. discriminate Hv.
Defined.
